(** * builder.py: a shallow embedding of [CProjectBuilder]

    The program is sequential orchestration of child processes and
    filesystem operations.  The embedding keeps that shape:

    - Python strings are [string]; the string methods the program calls
      ([split], [replace], [strip], [lower]) are written out;
    - a [pathlib.Path] is the list of its components, from the root;
    - the filesystem is a tree of directories and regular files;
    - methods are computations in a state-and-exception monad over a
      [World] (filesystem, working directory, log of effects);
    - a child process is an oracle: it reports how it ended, what it wrote
      on its standard output and the filesystem it left behind.

    The first part defines the model, the script and the vocabulary of
    the properties; the second part proves the properties. *)

From Stdlib Require Import List String Ascii Bool Arith ZArith Lia.
Import ListNotations.
Open Scope string_scope.

(** ** Python strings *)

Module PyStr.

(** [s.split(sep)] for a one-character separator. *)
Fixpoint split (sep : ascii) (s : string) : list string :=
  match s with
  | EmptyString => [EmptyString]
  | String c rest =>
      if Ascii.eqb c sep then EmptyString :: split sep rest
      else match split sep rest with
           | [] => [String c EmptyString]
           | hd :: tl => String c hd :: tl
           end
  end.

(** [xs[-1]] on a list of strings that [split] produced (never empty). *)
Definition last_item (xs : list string) : string := List.last xs EmptyString.

(** [s.startswith(p)] *)
Fixpoint startswith (p s : string) : bool :=
  match p with
  | EmptyString => true
  | String a p' =>
      match s with
      | EmptyString => false
      | String b s' => Ascii.eqb a b && startswith p' s'
      end
  end.

(** [s.replace(old, new)]: occurrences of [old] are found left to right and
    do not overlap.  [skip] counts the characters of a match that are still
    to be dropped. *)
Fixpoint replace_from (skip : nat) (old new s : string) : string :=
  match s with
  | EmptyString => EmptyString
  | String c rest =>
      match skip with
      | S k => replace_from k old new rest
      | O =>
          if startswith old s
          then new ++ replace_from (String.length old - 1) old new rest
          else String c (replace_from O old new rest)
      end
  end.

Definition replace (old new s : string) : string := replace_from 0 old new s.

(** [s.endswith(p)] *)
Definition endswith (p s : string) : bool :=
  let n := String.length s in
  let k := String.length p in
  Nat.leb k n && String.eqb (substring (n - k) k s) p.

(** [s.removesuffix(p)], the operation the specification describes. *)
Definition removesuffix (p s : string) : string :=
  if endswith p s then substring 0 (String.length s - String.length p) s else s.

Definition is_space (c : ascii) : bool :=
  let n := nat_of_ascii c in
  Nat.eqb n 32 || (Nat.leb 9 n && Nat.leb n 13) || (Nat.leb 28 n && Nat.leb n 31).

Fixpoint lstrip (s : string) : string :=
  match s with
  | String c rest => if is_space c then lstrip rest else s
  | EmptyString => EmptyString
  end.

Fixpoint rstrip (s : string) : string :=
  match s with
  | EmptyString => EmptyString
  | String c rest =>
      match rstrip rest with
      | EmptyString => if is_space c then EmptyString else String c EmptyString
      | r => String c r
      end
  end.

(** [s.strip()] *)
Definition strip (s : string) : string := rstrip (lstrip s).

Definition lower_ascii (c : ascii) : ascii :=
  let n := nat_of_ascii c in
  if Nat.leb 65 n && Nat.leb n 90 then ascii_of_nat (n + 32) else c.

(** [s.lower()] on ASCII text. *)
Fixpoint lower (s : string) : string :=
  match s with
  | EmptyString => EmptyString
  | String c rest => String (lower_ascii c) (lower rest)
  end.

(** [sep.join(xs)] *)
Fixpoint join (sep : string) (xs : list string) : string :=
  match xs with
  | [] => EmptyString
  | [x] => x
  | x :: rest => x ++ sep ++ join sep rest
  end.

(** Truth value of a string: the empty string is false. *)
Definition truthy (s : string) : bool :=
  match s with EmptyString => false | _ => true end.

End PyStr.

(** ** fnmatch patterns, as [pathlib] uses them for one path component

    [*] matches any run of characters (a leading dot included, which is how
    [Path.glob] behaves), [?] one character, anything else itself. *)

Module Fnmatch.

Fixpoint matches (pat name : string) : bool :=
  match pat with
  | EmptyString => match name with EmptyString => true | _ => false end
  | String p pat' =>
      if Ascii.eqb p "*"%char then
        (fix star (n : string) : bool :=
           matches pat' n ||
           match n with
           | EmptyString => false
           | String _ n' => star n'
           end) name
      else
        match name with
        | EmptyString => false
        | String c name' =>
            (Ascii.eqb p "?"%char || Ascii.eqb p c) && matches pat' name'
        end
  end.

(** The pattern is compiled case-insensitively on Windows and
    case-sensitively elsewhere. *)
Definition fnmatch (ignore_case : bool) (pat name : string) : bool :=
  if ignore_case then matches (PyStr.lower pat) (PyStr.lower name)
  else matches pat name.

End Fnmatch.

(** ** Filesystem

    A path is the list of its components below the root.  The components
    [.] and [..] and symbolic links are not interpreted: every path the
    program builds is the script's directory followed by fixed names and
    the project name.  Name lookup is exact (a case-sensitive volume);
    what varies with the platform is the pattern matching of [glob]. *)

Module FS.

Local Open Scope list_scope.

Definition path := list string.

#[warnings="-register-all"]
Inductive node : Type :=
| File (x_ok : bool) (data : string)
| Dir (entries : list (string * node)).

Fixpoint find_entry (name : string) (es : list (string * node)) : option node :=
  match es with
  | [] => None
  | (k, n) :: rest => if String.eqb k name then Some n else find_entry name rest
  end.

(** Replace the entry called [name], or add it at the end. *)
Fixpoint set_entry (name : string) (new : node) (es : list (string * node))
  : list (string * node) :=
  match es with
  | [] => [(name, new)]
  | (k, n) :: rest =>
      if String.eqb k name then (k, new) :: rest
      else (k, n) :: set_entry name new rest
  end.

Fixpoint remove_entry (name : string) (es : list (string * node))
  : list (string * node) :=
  match es with
  | [] => []
  | (k, n) :: rest =>
      if String.eqb k name then remove_entry name rest
      else (k, n) :: remove_entry name rest
  end.

(** Path resolution from the node [n]. *)
Fixpoint lookup (p : path) (n : node) {struct p} : option node :=
  match p with
  | [] => Some n
  | c :: p' =>
      match n with
      | File _ _ => None
      | Dir es =>
          match find_entry c es with
          | Some child => lookup p' child
          | None => None
          end
      end
  end.

(** [Path.exists()], [Path.is_file()], [Path.is_dir()] *)
Definition exists_ (root : node) (p : path) : bool :=
  match lookup p root with Some _ => true | None => false end.

Definition is_file (root : node) (p : path) : bool :=
  match lookup p root with Some (File _ _) => true | _ => false end.

Definition is_dir (root : node) (p : path) : bool :=
  match lookup p root with Some (Dir _) => true | _ => false end.

(** [os.access(p, os.X_OK)] *)
Definition access_x (root : node) (p : path) : bool :=
  match lookup p root with
  | Some (File x _) => x
  | Some (Dir _) => true
  | None => false
  end.

(** Put [new] at [p]: the parent of [p] has to be a directory. *)
Fixpoint put (p : path) (new : node) (n : node) {struct p} : option node :=
  match p with
  | [] => Some new
  | c :: p' =>
      match n with
      | File _ _ => None
      | Dir es =>
          match find_entry c es with
          | Some child =>
              match put p' new child with
              | Some child' => Some (Dir (set_entry c child' es))
              | None => None
              end
          | None =>
              match p' with
              | [] => Some (Dir (set_entry c new es))
              | _ :: _ => None
              end
          end
      end
  end.

(** [Path.mkdir(parents=True, exist_ok=True)]: fails when [p] or one of
    its ancestors is a regular file. *)
Fixpoint mkdirs (p : path) (n : node) {struct p} : option node :=
  match n with
  | File _ _ => None
  | Dir es =>
      match p with
      | [] => Some n
      | c :: p' =>
          let child := match find_entry c es with
                       | Some ch => ch
                       | None => Dir []
                       end in
          match mkdirs p' child with
          | Some child' => Some (Dir (set_entry c child' es))
          | None => None
          end
      end
  end.

(** Unlink the entry at [p] together with everything below it. *)
Fixpoint remove (p : path) (n : node) {struct p} : option node :=
  match p with
  | [] => None
  | c :: p' =>
      match n with
      | File _ _ => None
      | Dir es =>
          match p' with
          | [] =>
              match find_entry c es with
              | Some _ => Some (Dir (remove_entry c es))
              | None => None
              end
          | _ :: _ =>
              match find_entry c es with
              | Some child =>
                  match remove p' child with
                  | Some child' => Some (Dir (set_entry c child' es))
                  | None => None
                  end
              | None => None
              end
          end
      end
  end.

(** Every proper descendant of [n], with its path relative to [n]. *)
Fixpoint walk (n : node) : list (path * node) :=
  match n with
  | File _ _ => []
  | Dir es =>
      flat_map
        (fun kn =>
           match kn with
           | (k, child) =>
               ([k], child)
                 :: map (fun qm => (k :: fst qm, snd qm)) (walk child)
           end) es
  end.

(** [Path.name] *)
Definition name (p : path) : string := List.last p EmptyString.

(** [d.glob(pat)] for a pattern without a separator: the children of [d]
    whose name matches.  A [d] that is not a directory has no matches. *)
Definition glob (ignore_case : bool) (root : node) (d : path) (pat : string)
  : list path :=
  match lookup d root with
  | Some (Dir es) =>
      map (fun kn => d ++ [fst kn])
          (filter (fun kn => Fnmatch.fnmatch ignore_case pat (fst kn)) es)
  | _ => []
  end.

(** [d.rglob(pat)]: the descendants of [d], at any depth, whose name
    matches. *)
Definition rglob (ignore_case : bool) (root : node) (d : path) (pat : string)
  : list path :=
  match lookup d root with
  | Some n =>
      map (fun qm => d ++ fst qm)
          (filter (fun qm => Fnmatch.fnmatch ignore_case pat (name (fst qm)))
                  (walk n))
  | None => []
  end.

Fixpoint path_eqb (p q : path) : bool :=
  match p, q with
  | [], [] => true
  | a :: p', b :: q' => String.eqb a b && path_eqb p' q'
  | _, _ => false
  end.

End FS.

(** ** Exceptions, effects and the world *)

Module Py.

Import FS.
Local Open Scope list_scope.

(** The exception classes that occur; all of them derive from
    [Exception].  [SystemExit] does not and is an outcome of its own. *)
Inductive exn : Type :=
| CalledProcessError (returncode : Z) (cmd : list string)
| FileNotFoundError (what : string)
| OSError (what : string)
| Exception_ (msg : string).

(** What the program did, newest first in [trace]. *)
Inductive event : Type :=
| EPrint (text : string)
| EExec (cmd : list string) (dir : path)
| EChdir (p : path)
| ERmtree (p : path)
| EMkdir (p : path)
| ECopy (src dst : path).

Record World : Type := mkWorld {
  fs : node;
  cwd : path;
  clock : nat;
  trace : list event
}.

Inductive outcome (A : Type) : Type :=
| Ret (a : A)
| Raise (e : exn)
| Exit (status : Z).

Arguments Ret {A} a.
Arguments Raise {A} e.
Arguments Exit {A} status.

Definition M (A : Type) : Type := World -> outcome A * World.

Definition ret {A} (a : A) : M A := fun w => (Ret a, w).

Definition bind {A B} (m : M A) (k : A -> M B) : M B :=
  fun w =>
    match m w with
    | (Ret a, w') => k a w'
    | (Raise e, w') => (Raise e, w')
    | (Exit s, w') => (Exit s, w')
    end.

Definition raise {A} (e : exn) : M A := fun w => (Raise e, w).

(** [sys.exit(status)] *)
Definition sys_exit {A} (status : Z) : M A := fun w => (Exit status, w).

(** [try: body except <classes>: handler]; [classes e] tells whether the
    clause catches [e]. *)
Definition try_except {A} (body : M A) (classes : exn -> bool)
           (handler : exn -> M A) : M A :=
  fun w =>
    match body w with
    | (Raise e, w') => if classes e then handler e w' else (Raise e, w')
    | r => r
    end.

Declare Scope py_scope.
Delimit Scope py_scope with py.
Notation "x <- c1 ;; c2" := (bind c1 (fun x => c2))
  (at level 61, c1 at next level, right associativity) : py_scope.
Notation "c1 ;; c2" := (bind c1 (fun _ => c2))
  (at level 61, right associativity) : py_scope.
Local Open Scope py_scope.

(** [for x in xs: body x] *)
Fixpoint for_each {X} (xs : list X) (body : X -> M unit) : M unit :=
  match xs with
  | [] => ret tt
  | x :: rest => body x ;; for_each rest body
  end.

Definition when (b : bool) (m : M unit) : M unit := if b then m else ret tt.

Definition log (e : event) (w : World) : World :=
  mkWorld (fs w) (cwd w) (clock w) (e :: trace w).

Definition print (text : string) : M unit := fun w => (Ret tt, log (EPrint text) w).

(** Reading the world without changing it. *)
Definition reads {A} (f : World -> A) : M A := fun w => (Ret (f w), w).

Definition path_exists (p : path) : M bool := reads (fun w => exists_ (fs w) p).
Definition path_is_file (p : path) : M bool := reads (fun w => is_file (fs w) p).
Definition os_access_x (p : path) : M bool := reads (fun w => access_x (fs w) p).

(** [os.chdir(p)] *)
Definition os_chdir (p : path) : M unit :=
  fun w =>
    if is_dir (fs w) p
    then (Ret tt, mkWorld (fs w) p (clock w) (EChdir p :: trace w))
    else (Raise (if exists_ (fs w) p
                 then OSError "NotADirectoryError"
                 else FileNotFoundError "chdir"), w).

(** [shutil.rmtree(p)]: [p] has to be a directory. *)
Definition shutil_rmtree (p : path) : M unit :=
  fun w =>
    if is_dir (fs w) p then
      match remove p (fs w) with
      | Some fs' => (Ret tt, mkWorld fs' (cwd w) (clock w) (ERmtree p :: trace w))
      | None => (Raise (OSError "rmtree"), w)
      end
    else (Raise (if exists_ (fs w) p
                 then OSError "NotADirectoryError"
                 else FileNotFoundError "rmtree"), w).

(** [p.mkdir(parents=True, exist_ok=True)] *)
Definition path_mkdir (p : path) : M unit :=
  fun w =>
    match mkdirs p (fs w) with
    | Some fs' => (Ret tt, mkWorld fs' (cwd w) (clock w) (EMkdir p :: trace w))
    | None => (Raise (OSError "FileExistsError"), w)
    end.

(** [shutil.copy2(src, dst)]: into [dst] under the name of [src] when [dst]
    is a directory, onto [dst] otherwise; the mode travels with the data. *)
Definition shutil_copy2 (src dst : path) : M unit :=
  fun w =>
    match lookup src (fs w) with
    | Some (File x d) =>
        let target := if is_dir (fs w) dst then dst ++ [name src] else dst in
        if path_eqb src target then (Raise (OSError "SameFileError"), w)
        else if is_dir (fs w) target then (Raise (OSError "IsADirectoryError"), w)
        else match put target (File x d) (fs w) with
             | Some fs' =>
                 (Ret tt, mkWorld fs' (cwd w) (clock w) (ECopy src target :: trace w))
             | None => (Raise (FileNotFoundError "copy2"), w)
             end
    | Some (Dir _) => (Raise (OSError "IsADirectoryError"), w)
    | None => (Raise (FileNotFoundError "copy2"), w)
    end.

(** How a child process ended. *)
Inductive status : Type :=
| Exited (code : Z)
| NotFound
| CannotStart (why : string).

Record completed : Type := mkCompleted {
  st : status;
  stdout : string;
  fs_after : node
}.

(** The rest of the machine: command line, directory, filesystem and the
    number of processes started so far decide what a child does. *)
Definition Spawn : Type := list string -> path -> node -> nat -> completed.

(** The host the script runs on. *)
Record Host : Type := mkHost {
  system : string;                       (* platform.system() *)
  script_dir : path;                     (* Path(__file__).parent *)
  program_files_x86 : option string      (* os.environ['ProgramFiles(x86)'] *)
}.

Definition is_windows (h : Host) : bool := String.eqb (system h) "Windows".

(** [str(p)] *)
Definition str_path (h : Host) (p : path) : string :=
  if is_windows h then PyStr.join "\" p
  else String.append "/" (PyStr.join "/" p).

(** The path a string names, for [os.path.exists]. *)
Definition parse_path (h : Host) (s : string) : path :=
  filter PyStr.truthy
         (PyStr.split (if is_windows h then "\"%char else "/"%char) s).

End Py.

(** ** The script *)

Import FS Py.
Local Open Scope list_scope.
Local Open Scope py_scope.

(** [class BuildSystem] *)
Inductive BuildSystem : Type := CMAKE | MAKE | AUTOTOOLS | UNKNOWN.

Definition BuildSystem_value (b : BuildSystem) : string :=
  match b with
  | CMAKE => "cmake"
  | MAKE => "make"
  | AUTOTOOLS => "autotools"
  | UNKNOWN => "unknown"
  end.

Definition BuildSystem_eqb (a b : BuildSystem) : bool :=
  String.eqb (BuildSystem_value a) (BuildSystem_value b).

(** The attributes of a [CProjectBuilder]. *)
Record CProjectBuilder : Type := mkBuilder {
  github_url : string;
  branch : option string;
  project_root : path;
  project_name : string;
  source_dir : path;
  build_dir : path;
  output_dir : path;
  msbuild_path : option string;
  build_system : option BuildSystem
}.

Definition set_msbuild_path (self : CProjectBuilder) (v : option string) :=
  mkBuilder (github_url self) (branch self) (project_root self)
            (project_name self) (source_dir self) (build_dir self)
            (output_dir self) v (build_system self).

Definition set_build_system (self : CProjectBuilder) (v : option BuildSystem) :=
  mkBuilder (github_url self) (branch self) (project_root self)
            (project_name self) (source_dir self) (build_dir self)
            (output_dir self) (msbuild_path self) v.

(** Truth value of an optional string ([None] and [''] are false). *)
Definition truthy_opt (o : option string) : bool :=
  match o with
  | Some s => PyStr.truthy s
  | None => false
  end.

(** [github_url.split('/')[-1].replace('.git', '')] *)
Definition derive_project_name (github_url : string) : string :=
  PyStr.replace ".git" "" (PyStr.last_item (PyStr.split "/" github_url)).

(** The double quote, for the messages that contain one. *)
Definition dq : string := String (ascii_of_nat 34) EmptyString.

Definition cat (xs : list string) : string := PyStr.join "" xs.

Section Script.

Variable host : Host.
Variable spawn : Spawn.

(** [subprocess.run(cmd, cwd=dir, check=check)]; the result is the
    captured standard output. *)
Definition subprocess_run (cmd : list string) (dir : option path)
           (check : bool) : M string :=
  fun w =>
    let d := match dir with Some d => d | None => cwd w end in
    let r := spawn cmd d (fs w) (clock w) in
    let started := mkWorld (fs_after r) (cwd w) (S (clock w))
                           (EExec cmd d :: trace w) in
    let refused := mkWorld (fs w) (cwd w) (S (clock w))
                           (EExec cmd d :: trace w) in
    match st r with
    | Exited code =>
        if check && negb (Z.eqb code 0)
        then (Raise (CalledProcessError code cmd), started)
        else (Ret (stdout r), started)
    | NotFound => (Raise (FileNotFoundError (List.hd "" cmd)), refused)
    | CannotStart why => (Raise (OSError why), refused)
    end.

Definition os_path_join (parts : list string) : string :=
  PyStr.join (if is_windows host then "\" else "/") parts.

Definition os_path_exists (s : string) : M bool :=
  path_exists (parse_path host s).

(** *** [class WindowsTools] *)

Definition get_vs_install_path : M (option string) :=
  let program_files :=
    match program_files_x86 host with
    | Some v => v
    | None => "C:\Program Files (x86)"
    end in
  let vswhere :=
    os_path_join [program_files; "Microsoft Visual Studio"; "Installer";
                  "vswhere.exe"] in
  found <- os_path_exists vswhere ;;
  if negb found then ret None
  else
    try_except
      (out <- subprocess_run
                [vswhere; "-latest"; "-products"; "*"; "-requires";
                 "Microsoft.VisualStudio.Component.VC.Tools.x86.x64";
                 "-property"; "installationPath"] None false ;;
       ret (Some (PyStr.strip out)))
      (fun _ => true)
      (fun _ => ret None).

Definition common_paths : list string :=
  ["C:\Program Files\Microsoft Visual Studio\2022\Community\MSBuild\Current\Bin\MSBuild.exe";
   "C:\Program Files\Microsoft Visual Studio\2022\BuildTools\MSBuild\Current\Bin\MSBuild.exe";
   "C:\Program Files (x86)\Microsoft Visual Studio\2022\BuildTools\MSBuild\Current\Bin\MSBuild.exe";
   "C:\Program Files (x86)\Microsoft Visual Studio\2019\BuildTools\MSBuild\Current\Bin\MSBuild.exe";
   "C:\Program Files (x86)\Microsoft Visual Studio\2019\Community\MSBuild\Current\Bin\MSBuild.exe"].

(** [for path in common_paths: if os.path.exists(path): return path] *)
Fixpoint first_existing (paths : list string) : M (option string) :=
  match paths with
  | [] => ret None
  | p :: rest =>
      found <- os_path_exists p ;;
      if found then ret (Some p) else first_existing rest
  end.

Definition find_msbuild : M (option string) :=
  vs_path <- get_vs_install_path ;;
  hit <- (if truthy_opt vs_path then
            let msbuild :=
              os_path_join [match vs_path with Some v => v | None => "" end;
                            "MSBuild"; "Current"; "Bin"; "MSBuild.exe"] in
            found <- os_path_exists msbuild ;;
            ret (if found then Some msbuild else None)
          else ret None) ;;
  match hit with
  | Some m => ret (Some m)
  | None => first_existing common_paths
  end.

(** *** [class CProjectBuilder] *)

(** [__init__] *)
Definition init (url : string) (br : option string) : CProjectBuilder :=
  let root := script_dir host in
  let name := derive_project_name url in
  mkBuilder url br root name
            (root ++ ["source"; name])
            (root ++ ["build"; name])
            (root ++ ["output"; name])
            None None.

Definition detect_build_system (self : CProjectBuilder) : M BuildSystem :=
  print "
Detecting build system..." ;;
  cmakelists <- path_exists (source_dir self ++ ["CMakeLists.txt"]) ;;
  if cmakelists then
    print "✓ CMake build system detected" ;;
    ret CMAKE
  else
    configure_ac <- path_exists (source_dir self ++ ["configure.ac"]) ;;
    configure <- path_exists (source_dir self ++ ["configure"]) ;;
    if configure_ac || configure then
      print "✓ Autotools build system detected" ;;
      ret AUTOTOOLS
    else
      makefile <- path_exists (source_dir self ++ ["Makefile"]) ;;
      globbed <- reads (fun w => glob (is_windows host) (fs w)
                                      (source_dir self) "makefile*") ;;
      if makefile || negb (Nat.eqb (List.length globbed) 0) then
        print "✓ Make build system detected" ;;
        ret MAKE
      else
        print "! No recognized build system detected" ;;
        ret UNKNOWN.

(** [except (subprocess.SubprocessError, FileNotFoundError)] *)
Definition subprocess_error_or_not_found (e : exn) : bool :=
  match e with
  | CalledProcessError _ _ => true
  | FileNotFoundError _ => true
  | _ => false
  end.

(** One of the three [try: subprocess.run([tool, '--version'], ...)]
    blocks of [check_dependencies]. *)
Definition probe_tool (tool found windows_help other_help : string)
           (missing_tools : list string) : M (list string) :=
  try_except
    (subprocess_run [tool; "--version"] None true ;;
     print found ;;
     ret missing_tools)
    subprocess_error_or_not_found
    (fun _ =>
       print (if is_windows host then windows_help else other_help) ;;
       ret (missing_tools ++ [tool])).

Definition git_windows_help : string :=
  cat ["
Git not found! Please install:
1. Download from: https://git-scm.com/download/win
2. Run installer and select "; dq; "Add to PATH"; dq; "
"].

Definition cmake_windows_help : string :=
  cat ["
CMake not found! Please install:
1. Download from: https://cmake.org/download/
2. Choose Windows x64 Installer
3. During installation, select "; dq; "Add CMake to system PATH"; dq; "
"].

Definition msbuild_help : string :=
  cat ["
Visual Studio Build Tools not found! Please install:
1. Download Visual Studio Build Tools 2022:
   https://aka.ms/vs/17/release/vs_buildtools.exe
   
2. Run the installer and select:
   - "; dq; "Desktop development with C++"; dq; "
   Including these components:
   - MSVC Build Tools
   - Windows 10/11 SDK
   - C++ CMake tools
   
3. Complete installation and restart your computer
"].

Definition check_dependencies (self : CProjectBuilder)
  : M (list string * CProjectBuilder) :=
  print "Checking build dependencies..." ;;
  m1 <- probe_tool "git" "✓ Git found" git_windows_help
          "Git not found! Please install using your package manager." [] ;;
  m2 <- probe_tool "make" "✓ Make found"
          "Make not found! Please install MinGW or Cygwin."
          "Make not found! Please install using your package manager." m1 ;;
  m3 <- probe_tool "cmake" "✓ CMake found" cmake_windows_help
          "CMake not found! Please install using your package manager." m2 ;;
  if is_windows host then
    found <- find_msbuild ;;
    let self' := set_msbuild_path self found in
    if negb (truthy_opt found) then
      print msbuild_help ;;
      ret (m3 ++ ["msbuild"], self')
    else
      print (cat ["✓ MSBuild found at: ";
                  match found with Some v => v | None => "None" end]) ;;
      ret (m3, self')
  else ret (m3, self).

(** [time.sleep(1)] changes nothing the model observes and is left out. *)
Definition clean_directories (self : CProjectBuilder) : M unit :=
  print "
Cleaning directories..." ;;
  for_each [build_dir self; output_dir self]
    (fun directory =>
       present <- path_exists directory ;;
       when present (shutil_rmtree directory) ;;
       path_mkdir directory) ;;
  print "✓ Directories cleaned".

Definition clone_command (self : CProjectBuilder) : list string :=
  ["git"; "clone"]
    ++ (if truthy_opt (branch self)
        then ["--branch"; match branch self with Some b => b | None => "" end]
        else [])
    ++ [github_url self; str_path host (source_dir self)].

Definition clone_repository (self : CProjectBuilder) : M unit :=
  print (cat ["
Cloning repository from "; github_url self; "..."]) ;;
  present <- path_exists (source_dir self) ;;
  when present (shutil_rmtree (source_dir self)) ;;
  subprocess_run (clone_command self) None true ;;
  subprocess_run ["git"; "submodule"; "update"; "--init"; "--recursive"]
                 (Some (source_dir self)) true ;;
  print "✓ Repository and submodules cloned successfully".

Definition build_cmake_project (self : CProjectBuilder) : M unit :=
  print "
Building with CMake..." ;;
  let cmake_args :=
    ["cmake"; "-S"; str_path host (source_dir self);
     "-B"; str_path host (build_dir self)]
      ++ (if is_windows host
          then ["-A"; "x64";
                cat ["-DCMAKE_INSTALL_PREFIX="; str_path host (output_dir self)]]
          else ["-DCMAKE_BUILD_TYPE=Release";
                cat ["-DCMAKE_INSTALL_PREFIX="; str_path host (output_dir self)]])
  in
  print "
Running CMake configuration..." ;;
  subprocess_run cmake_args None true ;;
  print "
Building project..." ;;
  (if is_windows host then
     match msbuild_path self with
     | Some msbuild =>
         subprocess_run
           [msbuild; str_path host (build_dir self ++ ["ALL_BUILD.vcxproj"]);
            "/p:Configuration=Release"; "/p:Platform=x64"; "/m"] None true
     | None => raise (Exception_ "TypeError")
     end
   else
     subprocess_run ["cmake"; "--build"; str_path host (build_dir self);
                     "--config"; "Release"] None true) ;;
  print "
Installing to output directory..." ;;
  subprocess_run ["cmake"; "--install"; str_path host (build_dir self);
                  "--config"; "Release"] None true ;;
  ret tt.

Definition build_autotools_project (self : CProjectBuilder) : M unit :=
  print "
Building with Autotools..." ;;
  os_chdir (source_dir self) ;;
  autogen <- path_exists (source_dir self ++ ["autogen.sh"]) ;;
  when autogen
    (print "
Running autogen.sh..." ;;
     subprocess_run ["./autogen.sh"] None true ;;
     ret tt) ;;
  configure <- path_exists (source_dir self ++ ["configure"]) ;;
  when configure
    (print "
Running configure..." ;;
     subprocess_run ["./configure";
                     cat ["--prefix="; str_path host (output_dir self)];
                     "--enable-shared"] None true ;;
     ret tt) ;;
  print "
Running make..." ;;
  subprocess_run ["make"; "-j"] None true ;;
  print "
Running make install..." ;;
  subprocess_run ["make"; "install"] None true ;;
  os_chdir (project_root self).

(** [except subprocess.CalledProcessError] *)
Definition called_process_error (e : exn) : bool :=
  match e with
  | CalledProcessError _ _ => true
  | _ => false
  end.

Definition artifact_extensions : list string :=
  [""; ".exe"; ".dll"; ".so"; ".dylib"].

(** The body of the inner loop of the fallback:
    [if file.is_file() and os.access(file, os.X_OK): shutil.copy2(...)]. *)
Definition copy_if_executable (self : CProjectBuilder) (file : path) : M unit :=
  regular <- path_is_file file ;;
  executable <- os_access_x file ;;
  when (regular && executable) (shutil_copy2 file (output_dir self)).

(** The body of the outer loop:
    [for file in self.source_dir.rglob(f'*{ext}'): ...]. *)
Definition copy_matching (self : CProjectBuilder) (ext : string) : M unit :=
  files <- reads (fun w => rglob (is_windows host) (fs w) (source_dir self)
                                 (String.append "*" ext)) ;;
  for_each files (copy_if_executable self).

(** The body of the [except] clause of [build_make_project]. *)
Definition copy_artifacts (self : CProjectBuilder) : M unit :=
  print "! Make install failed - copying build artifacts manually" ;;
  path_mkdir (output_dir self) ;;
  for_each artifact_extensions (copy_matching self).

(** [build_make_project], in the three parts its text has: the statements
    before the [try], the [try] statement, and the final [os.chdir]. *)
Definition make_configure_and_build (self : CProjectBuilder) : M unit :=
  print "
Building with Make..." ;;
  os_chdir (source_dir self) ;;
  configure <- path_exists (source_dir self ++ ["configure"]) ;;
  when configure
    (print "
Running configure..." ;;
     subprocess_run ["./configure";
                     cat ["--prefix="; str_path host (output_dir self)]]
                    None true ;;
     ret tt) ;;
  print "
Running make..." ;;
  subprocess_run ["make"; "-j"] None true ;;
  ret tt.

Definition make_install_or_copy (self : CProjectBuilder) : M unit :=
  try_except
    (print "
Running make install..." ;;
     subprocess_run ["make"; "install"] None true ;;
     ret tt)
    called_process_error
    (fun _ => copy_artifacts self).

Definition build_make_project (self : CProjectBuilder) : M unit :=
  make_configure_and_build self ;;
  make_install_or_copy self ;;
  os_chdir (project_root self).

(** The result carries the builder with [build_system] set. *)
Definition build_project (self : CProjectBuilder) : M CProjectBuilder :=
  detected <- detect_build_system self ;;
  let self' := set_build_system self (Some detected) in
  (if BuildSystem_eqb detected CMAKE then build_cmake_project self'
   else if BuildSystem_eqb detected AUTOTOOLS then build_autotools_project self'
   else if BuildSystem_eqb detected MAKE then build_make_project self'
   else raise (Exception_ "No supported build system detected")) ;;
  print (cat ["
✓ Project built and installed to: "; str_path host (output_dir self')]) ;;
  ret self'.

(** [str(e)] in the error report. *)
Definition str_exn (e : exn) : string :=
  match e with
  | CalledProcessError _ cmd =>
      cat ["Command "; PyStr.join " " cmd; " returned non-zero exit status"]
  | FileNotFoundError what => what
  | OSError what => what
  | Exception_ msg => msg
  end.

(** The [try] block of [run]. *)
Definition run_stages (self : CProjectBuilder) : M unit :=
  clean_directories self ;;
  clone_repository self ;;
  self' <- build_project self ;;
  print "
Build process completed successfully!" ;;
  print (cat ["Output files can be found in: "; str_path host (output_dir self')]).

(** The [except Exception as e] clause of [run]. *)
Definition report_failure (e : exn) : M unit :=
  print (cat ["
Error during build process: "; str_exn e]) ;;
  print "
Troubleshooting tips:" ;;
  print "1. Make sure the repository URL is correct" ;;
  print "2. Verify the project has a supported build system:" ;;
  print "   - CMake (CMakeLists.txt)" ;;
  print "   - Autotools (configure.ac or configure)" ;;
  print "   - Make (Makefile)" ;;
  print "3. Check if you have the necessary permissions" ;;
  print "4. Make sure all dependencies are properly installed" ;;
  when (is_windows host)
       (print "5. Verify Visual Studio Build Tools are properly installed") ;;
  sys_exit 1.

Definition run (self : CProjectBuilder) : M unit :=
  print (cat ["Starting build process for "; project_name self; "..."]) ;;
  checked <- check_dependencies self ;;
  let missing := fst checked in
  let self' := snd checked in
  match missing with
  | _ :: _ =>
      print "
Missing required tools. Please install them and try again." ;;
      sys_exit 1
  | [] =>
      try_except (run_stages self') (fun _ => true) report_failure
  end.

(** The [if __name__ == '__main__'] block; [argv] is [sys.argv]. *)
Definition main (argv : list string) : M unit :=
  match argv with
  | _ :: url :: rest =>
      let br := match rest with b :: _ => Some b | [] => None end in
      run (init url br)
  | _ =>
      print "Usage: python builder.py <github_url> [branch]" ;;
      print "Example: python builder.py https://github.com/username/project.git main" ;;
      sys_exit 1
  end.

(** The exit status of the interpreter: 0 when the script runs to its end,
    the argument of [sys.exit], 1 after an uncaught exception. *)
Definition exit_status (r : outcome unit) : Z :=
  match r with
  | Ret _ => 0
  | Exit s => s
  | Raise _ => 1
  end.

End Script.

(** ** Concrete hosts, disks and machines, for running the script *)

Module Demo.

Definition linux : Host := mkHost "Linux" ["opt"; "builder"] None.

Definition windows : Host := mkHost "Windows" ["C:"; "builder"] None.

(** A disk that holds the script's directory and nothing else. *)
Definition disk : node := Dir [("opt", Dir [("builder", Dir [])])].

Definition boot (root : node) (dir : path) : World := mkWorld root dir 0 [].

Fixpoint cmd_eqb (a b : list string) : bool :=
  match a, b with
  | [], [] => true
  | x :: a', y :: b' => String.eqb x y && cmd_eqb a' b'
  | _, _ => false
  end.

(** A machine on which [git clone] checks [tree] out at [dest], every
    command listed in [failing] exits with status 2, every command listed
    in [absent] cannot be found, and anything else succeeds and leaves the
    disk alone. *)
Definition machine (tree : node) (dest : path)
           (failing absent : list (list string)) : Spawn :=
  fun cmd dir root k =>
    if existsb (cmd_eqb cmd) absent then mkCompleted NotFound "" root
    else if existsb (cmd_eqb cmd) failing then mkCompleted (Exited 2) "" root
    else
      match cmd with
      | "git" :: "clone" :: _ =>
          mkCompleted (Exited 0) ""
            (match mkdirs dest root with
             | Some made =>
                 match put dest tree made with
                 | Some done => done
                 | None => root
                 end
             | None => root
             end)
      | _ => mkCompleted (Exited 0) "" root
      end.

Definition libfoo_url : string := "https://github.com/example/libfoo.git".

Definition libfoo_src : path := ["opt"; "builder"; "source"; "libfoo"].

Definition libfoo : CProjectBuilder := init linux libfoo_url None.

(** Source trees. *)
Definition cmake_and_make_tree : node :=
  Dir [("CMakeLists.txt", File false "project(foo)");
       ("Makefile", File false "all:");
       ("foo.c", File false "int main(){}")].

Definition configure_only_tree : node :=
  Dir [("configure", File true "#!/bin/sh"); ("foo.c", File false "")].

Definition upper_makefile_tree : node :=
  Dir [("MAKEFILE", File false "all:")].

Definition makefile_am_tree : node :=
  Dir [("Makefile.am", File false "bin_PROGRAMS = foo")].

Definition lower_makefile_tree : node :=
  Dir [("makefile.linux", File false "all:")].

Definition no_marker_tree : node :=
  Dir [("README.md", File false "hello")].

(** A Make project after [make]: an executable, a shared object that is
    not executable, and a nested executable. *)
Definition built_make_tree : node :=
  Dir [("Makefile", File false "all:");
       ("prog", File true "ELF prog");
       ("libfoo.so", File false "ELF lib");
       ("tools", Dir [("gen", File true "ELF gen")])].

(** The disk with [tree] checked out as libfoo. *)
Definition checked_out (tree : node) : node :=
  Dir [("opt", Dir [("builder", Dir [("source", Dir [("libfoo", tree)])])])].

Definition home : path := ["opt"; "builder"].

(** Every tool present; [git clone] delivers [tree]. *)
Definition healthy (tree : node) : Spawn := machine tree libfoo_src [] [].

(** The same machine without cmake. *)
Definition without_cmake (tree : node) : Spawn :=
  machine tree libfoo_src [] [["cmake"; "--version"]].

(** The same machine, with [make install] exiting with status 2. *)
Definition install_fails (tree : node) : Spawn :=
  machine tree libfoo_src [["make"; "install"]] [].

(** The same machine, with [make -j] exiting with status 2. *)
Definition make_fails (tree : node) : Spawn :=
  machine tree libfoo_src [["make"; "-j"]] [].

End Demo.

(** ** The vocabulary of the properties *)

Section Vocabulary.

Variable host : Host.
Variable spawn : Spawn.

(** *** What a computation can do

    [emits P m]: [m] never ends in [SystemExit], every effect it logs
    satisfies [P], and it leaves the working directory alone unless it
    logs a change of directory. *)

Definition not_chdir (e : event) : Prop :=
  match e with
  | EChdir _ => False
  | _ => True
  end.

Definition emits {A} (P : event -> Prop) (m : M A) : Prop :=
  forall w r w',
    m w = (r, w') ->
    (forall s, r <> Exit s) /\
    exists new,
      trace w' = new ++ trace w /\
      Forall P new /\
      (Forall not_chdir new -> cwd w' = cwd w).

(** [lands p m]: [m] ends in [p] when it completes and where it started
    when it raises. *)
Definition lands (p : path) (m : M unit) : Prop :=
  forall w r w',
    m w = (r, w') ->
    (forall s, r <> Exit s) /\
    (r = Ret tt -> cwd w' = p) /\
    (forall e, r = Raise e -> cwd w' = cwd w).

(** An event that only tells or asks: a message, or a query for a tool's
    version or for the Visual Studio installation. *)
Definition query (cmd : list string) : bool :=
  match cmd with
  | _ :: flag :: rest =>
      (String.eqb flag "--version" && Nat.eqb (List.length rest) 0)
      || String.eqb flag "-latest"
  | _ => false
  end.

Definition diagnostic (e : event) : Prop :=
  match e with
  | EPrint _ => True
  | EExec cmd _ => query cmd = true
  | _ => False
  end.

Definition is_print (e : event) : Prop :=
  match e with
  | EPrint _ => True
  | _ => False
  end.

Definition anything (e : event) : Prop := True.

(** *** Detection *)

(** The marker tests of [detect_build_system], on a disk. *)
Definition has_marker (self : CProjectBuilder) (w : World) (file : string)
  : bool :=
  exists_ (fs w) (source_dir self ++ [file]).

Definition makefile_glob (self : CProjectBuilder) (w : World) : list path :=
  glob (is_windows host) (fs w) (source_dir self) "makefile*".

Definition has_make_marker (self : CProjectBuilder) (w : World) : bool :=
  has_marker self w "Makefile"
  || negb (Nat.eqb (List.length (makefile_glob self w)) 0).

Definition detected (self : CProjectBuilder) (w : World)
  : outcome BuildSystem :=
  fst (detect_build_system host self w).

(** *** The orchestrator *)

(** The world after the first message of [run]. *)
Definition started (self : CProjectBuilder) (w : World) : World :=
  log (EPrint (cat ["Starting build process for "; project_name self; "..."])) w.

(** What the [except] clause of [run] prints, newest first. *)
Definition troubleshooting (e : exn) : list event :=
  (if is_windows host
   then [EPrint "5. Verify Visual Studio Build Tools are properly installed"]
   else [])
  ++ [EPrint "4. Make sure all dependencies are properly installed";
      EPrint "3. Check if you have the necessary permissions";
      EPrint "   - Make (Makefile)";
      EPrint "   - Autotools (configure.ac or configure)";
      EPrint "   - CMake (CMakeLists.txt)";
      EPrint "2. Verify the project has a supported build system:";
      EPrint "1. Make sure the repository URL is correct";
      EPrint "
Troubleshooting tips:";
      EPrint (cat ["
Error during build process: "; str_exn e])].

(** *** Fetching *)

Definition submodule_command : list string :=
  ["git"; "submodule"; "update"; "--init"; "--recursive"].

Definition cloning_message (self : CProjectBuilder) : event :=
  EPrint (cat ["
Cloning repository from "; github_url self; "..."]).

(** *** The Make driver *)

(** The directories as [__init__] lays them out. *)
Definition laid_out (self : CProjectBuilder) : Prop :=
  source_dir self = (project_root self ++ ["source"; project_name self])%list /\
  output_dir self = (project_root self ++ ["output"; project_name self])%list.

(** [n] is in the output directory, as an executable regular file. *)
Definition collected (self : CProjectBuilder) (n : string) (root : node)
  : Prop :=
  exists d, lookup (output_dir self ++ [n]) root = Some (File true d).

(** A copy of an executable regular file of [root], into the output
    directory under its own name. *)
Definition copy_of_executable (self : CProjectBuilder) (root : node)
           (e : event) : Prop :=
  match e with
  | ECopy from to =>
      is_file root from = true /\ access_x root from = true /\
      to = output_dir self ++ [name from]
  | _ => True
  end.

(** The source tree is as it is on [root], the output directory exists,
    and since the log was [before] only executables were copied. *)
Definition copying (self : CProjectBuilder) (root : node)
           (before : list event) (w : World) : Prop :=
  (forall q, lookup (source_dir self ++ q) (fs w)
             = lookup (source_dir self ++ q) root) /\
  is_dir (fs w) (output_dir self) = true /\
  exists new,
    trace w = new ++ before /\ Forall (copy_of_executable self root) new.

(** The world after [make install] was run in the world [w1]. *)
Definition after_install (w1 : World) : World :=
  let r := spawn ["make"; "install"] (cwd w1) (fs w1) (clock w1) in
  mkWorld (match st r with Exited _ => fs_after r | _ => fs w1 end)
          (cwd w1) (S (clock w1))
          (EExec ["make"; "install"] (cwd w1)
             :: EPrint "
Running make install..." :: trace w1).

End Vocabulary.

(** ** Further vocabulary, for the rest of the script *)

(** [c in s] *)
Fixpoint has_char (c : ascii) (s : string) : bool :=
  match s with
  | EmptyString => false
  | String d rest => Ascii.eqb d c || has_char c rest
  end.

(** A path component that the operating system and [pathlib] read as the
    name of an entry, the way [FS.lookup] reads every component: it is not
    empty, not [.] and not [..], and holds no separator. *)
Definition plain_component (n : string) : Prop :=
  n <> "" /\ n <> "." /\ n <> ".." /\
  has_char "/" n = false /\ has_char "\" n = false.

(** A project name that [source_dir / name] appends as one such component
    on every host: on Windows a name with a colon is read as a drive. *)
Definition ordinary_name (n : string) : Prop :=
  plain_component n /\ has_char ":" n = false.

(** The directories of the builder are read as they are written. *)
Definition plain_paths (self : CProjectBuilder) : Prop :=
  Forall plain_component (project_root self) /\
  ordinary_name (project_name self).

(** The build directory as [__init__] lays it out. *)
Definition laid_out_build (self : CProjectBuilder) : Prop :=
  build_dir self = (project_root self ++ ["build"; project_name self])%list.

(** The paths [p] and [keep] part at some component: neither is at or
    below the other. *)
Definition diverge (p keep : path) : Prop :=
  exists r a b p' k',
    a <> b /\ p = (r ++ a :: p')%list /\ keep = (r ++ b :: k')%list.

(** [m] changes nothing at or below [keep], however it ends. *)
Definition untouched {A} (keep : path) (m : M A) : Prop :=
  forall w r w',
    m w = (r, w') ->
    forall q, lookup (keep ++ q)%list (fs w') = lookup (keep ++ q)%list (fs w).

(** [m] starts at most [n] processes, exactly [n] when it returns, and
    leaves the working directory alone. *)
Definition ticks {A} (n : nat) (m : M A) : Prop :=
  forall w r w',
    m w = (r, w') ->
    cwd w' = cwd w /\
    (clock w <= clock w' <= clock w + n)%nat /\
    (forall a, r = Ret a -> clock w' = (clock w + n)%nat).

(** A process the Autotools driver starts when the checkout holds neither
    [autogen.sh] nor [configure]. *)
Definition make_only (e : event) : Prop :=
  match e with
  | EExec cmd _ => cmd = ["make"; "-j"] \/ cmd = ["make"; "install"]
  | _ => True
  end.

(** The tools [check_dependencies] can report, in the order it reports
    them. *)
Definition reported (git make cmake msbuild : bool) : list string :=
  ((if git then ["git"] else [])
     ++ (if make then ["make"] else [])
     ++ (if cmake then ["cmake"] else [])
     ++ (if msbuild then ["msbuild"] else []))%list.

(** [subprocess.run(..., check=True)] returns for this status. *)
Definition succeeded (s : status) : bool :=
  match s with
  | Exited code => Z.eqb code 0
  | _ => false
  end.

(** A tool whose version query always succeeds, and one that is not
    installed. *)
Definition installed (spawn : Spawn) (tool : string) : Prop :=
  forall dir root k, st (spawn [tool; "--version"] dir root k) = Exited 0.

Definition not_installed (spawn : Spawn) (tool : string) : Prop :=
  forall dir root k, st (spawn [tool; "--version"] dir root k) = NotFound.



(** ** Further hosts, disks and machines *)

Module Lab.

Import FS Py Demo.

(** A machine on which no process can be started. *)
Definition unstartable : Spawn :=
  fun cmd dir root k => mkCompleted (CannotStart "PermissionError") "" root.

(** A disk on which the build directory of libfoo is a regular file. *)
Definition blocked_disk : node :=
  Dir [("opt", Dir [("builder",
         Dir [("build", Dir [("libfoo", File false "not a directory")])])])].

(** A disk with a checkout and with leftovers of an earlier build. *)
Definition used_disk : node :=
  Dir [("opt", Dir [("builder",
         Dir [("source", Dir [("libfoo", built_make_tree)]);
              ("build", Dir [("libfoo", Dir [("old.o", File false "obj")])]);
              ("output", Dir [("libfoo", Dir [("prog", File true "old")])])])])].

(** A checkout that holds [configure.ac] and no script. *)
Definition configure_ac_tree : node :=
  Dir [("configure.ac", File false "AC_INIT"); ("Makefile", File false "all:")].


End Lab.

(** * Properties *)

(** ** The string and pattern functions on the inputs of the script *)

Example split_github_url :
  PyStr.split "/" "https://github.com/a/b.git" =
  ["https:"; ""; "github.com"; "a"; "b.git"].
Proof. reflexivity. Qed.

Example lowercase_makefile_matches : Fnmatch.fnmatch false "makefile*" "makefile.linux" = true.
Proof. reflexivity. Qed.
Example makefile_am_does_not_match : Fnmatch.fnmatch false "makefile*" "Makefile.am" = false.
Proof. reflexivity. Qed.
Example uppercase_matches_ignoring_case : Fnmatch.fnmatch true "makefile*" "MAKEFILE" = true.
Proof. reflexivity. Qed.
Example shared_object_suffix_matches : Fnmatch.fnmatch false "*.so" "libfoo.so" = true.
Proof. reflexivity. Qed.
Example replace_inner_dot_git : PyStr.replace ".git" "" "user.github.io" = "userhub.io".
Proof. reflexivity. Qed.
Example replace_trailing_dot_git : PyStr.replace ".git" "" "libfoo.git" = "libfoo".
Proof. reflexivity. Qed.
Example strip_installation_path : PyStr.strip "  C:\VS
" = "C:\VS".
Proof. reflexivity. Qed.

(** The end-to-end scenario: a CMake project, every tool present. *)
Example end_to_end_cmake :
  let rw := run Demo.linux (Demo.healthy Demo.cmake_and_make_tree) Demo.libfoo
                (Demo.boot Demo.disk Demo.home) in
  exit_status (fst rw) = 0%Z /\
  is_dir (fs (snd rw)) ["opt"; "builder"; "source"; "libfoo"] = true /\
  filter (fun e => match e with EExec ("cmake" :: _ :: _ :: _) _ => true
                              | _ => false end)
         (rev (trace (snd rw))) =
  [EExec ["cmake"; "-S"; "/opt/builder/source/libfoo";
          "-B"; "/opt/builder/build/libfoo"; "-DCMAKE_BUILD_TYPE=Release";
          "-DCMAKE_INSTALL_PREFIX=/opt/builder/output/libfoo"] Demo.home;
   EExec ["cmake"; "--build"; "/opt/builder/build/libfoo";
          "--config"; "Release"] Demo.home;
   EExec ["cmake"; "--install"; "/opt/builder/build/libfoo";
          "--config"; "Release"] Demo.home].
Proof. vm_compute. repeat split; reflexivity. Qed.

(** ** The filesystem *)

Module FSFacts.

Import FS.
Local Open Scope list_scope.

Lemma find_set_same (c : string) (v : node) (es : list (string * node)) :
  find_entry c (set_entry c v es) = Some v.
Proof.
  induction es as [|[k n] es IH]; simpl.
  - now rewrite String.eqb_refl.
  - destruct (String.eqb k c) eqn:E; simpl; rewrite E; auto.
Qed.

Lemma find_set_other (a b : string) (v : node) (es : list (string * node)) :
  a <> b -> find_entry b (set_entry a v es) = find_entry b es.
Proof.
  intros Hab. induction es as [|[k n] es IH]; simpl.
  - destruct (String.eqb a b) eqn:E; auto.
    apply String.eqb_eq in E. contradiction.
  - destruct (String.eqb k a) eqn:Ea; simpl.
    + apply String.eqb_eq in Ea. subst k.
      destruct (String.eqb a b) eqn:E; auto.
      apply String.eqb_eq in E. contradiction.
    + destruct (String.eqb k b); auto.
Qed.

Lemma find_remove_same (c : string) (es : list (string * node)) :
  find_entry c (remove_entry c es) = None.
Proof.
  induction es as [|[k n] es IH]; simpl; auto.
  destruct (String.eqb k c) eqn:E; simpl; auto. now rewrite E.
Qed.

Lemma find_entry_In (c : string) (es : list (string * node)) (n : node) :
  find_entry c es = Some n -> In (c, n) es.
Proof.
  induction es as [|[k m] es IH]; simpl; [discriminate|].
  destruct (String.eqb k c) eqn:E.
  - apply String.eqb_eq in E. intros [= ->]. subst. now left.
  - intros H. right. auto.
Qed.

Lemma lookup_app (p q : path) (n : node) :
  lookup (p ++ q) n =
  match lookup p n with
  | Some m => lookup q m
  | None => None
  end.
Proof.
  revert n. induction p as [|c p IH]; intros n; simpl; auto.
  destruct n as [x d|es]; auto.
  destruct (find_entry c es); auto.
Qed.

(** Below something that does not exist, nothing exists. *)
Lemma lookup_below_missing (p q : path) (n : node) :
  lookup p n = None -> lookup (p ++ q) n = None.
Proof. intros H. now rewrite lookup_app, H. Qed.

Lemma put_same (p : path) (new n n' : node) :
  put p new n = Some n' -> lookup p n' = Some new.
Proof.
  revert n n'. induction p as [|c p IH]; intros n n'; simpl.
  - now intros [= ->].
  - destruct n as [x d|es]; [discriminate|].
    destruct (find_entry c es) as [child|] eqn:F.
    + destruct (put p new child) as [child'|] eqn:P; [|discriminate].
      intros [= <-]. simpl. rewrite find_set_same. eauto.
    + destruct p; [|discriminate].
      intros [= <-]. simpl. now rewrite find_set_same.
Qed.

(** A write does not show on a path that leaves the written one at some
    component. *)
Lemma put_diverge (r : path) (a b : string) (p q : path) (new n n' : node) :
  a <> b ->
  put (r ++ a :: p) new n = Some n' ->
  lookup (r ++ b :: q) n' = lookup (r ++ b :: q) n.
Proof.
  intros Hab. revert n n'. induction r as [|c r IH]; intros n n'; simpl.
  - destruct n as [x d|es]; [discriminate|].
    destruct (find_entry a es) as [child|].
    + destruct (put p new child); [|discriminate].
      intros [= <-]. simpl. now rewrite find_set_other.
    + destruct p; [|discriminate].
      intros [= <-]. simpl. now rewrite find_set_other.
  - destruct n as [x d|es]; [discriminate|].
    destruct (find_entry c es) as [child|] eqn:F.
    + destruct (put (r ++ a :: p) new child) as [child'|] eqn:P; [|discriminate].
      intros [= <-]. simpl. rewrite find_set_same. eauto.
    + destruct (r ++ a :: p) eqn:E; [destruct r; discriminate|discriminate].
Qed.

Lemma mkdirs_is_dir (p : path) (n n' : node) :
  mkdirs p n = Some n' -> is_dir n' p = true.
Proof.
  unfold is_dir. revert n n'. induction p as [|c p IH]; intros n n'; simpl.
  - destruct n; [discriminate|]. now intros [= <-].
  - destruct n as [x d|es]; [discriminate|].
    destruct (mkdirs p _) as [child'|] eqn:E; [|discriminate].
    intros [= <-]. simpl. rewrite find_set_same. eauto.
Qed.

Lemma mkdirs_fresh (r : path) (a b : string) (p q : path) (n' : node) :
  a <> b ->
  mkdirs (r ++ a :: p) (Dir []) = Some n' ->
  lookup (r ++ b :: q) n' = None.
Proof.
  intros Hab. revert n'. induction r as [|c r IH]; intros n'; simpl.
  - destruct (mkdirs p (Dir [])); [|discriminate].
    intros [= <-]. simpl.
    destruct (String.eqb a b) eqn:E; auto.
    apply String.eqb_eq in E. contradiction.
  - destruct (mkdirs (r ++ a :: p) (Dir [])) as [child'|] eqn:E; [|discriminate].
    intros [= <-]. simpl. rewrite String.eqb_refl. eauto.
Qed.

Lemma mkdirs_diverge (r : path) (a b : string) (p q : path) (n n' : node) :
  a <> b ->
  mkdirs (r ++ a :: p) n = Some n' ->
  lookup (r ++ b :: q) n' = lookup (r ++ b :: q) n.
Proof.
  intros Hab. revert n n'. induction r as [|c r IH]; intros n n'; simpl.
  - destruct n as [x d|es]; [discriminate|].
    destruct (mkdirs p _); [|discriminate].
    intros [= <-]. simpl. now rewrite find_set_other.
  - destruct n as [x d|es]; [discriminate|].
    destruct (find_entry c es) as [child|] eqn:F.
    + destruct (mkdirs (r ++ a :: p) child) as [child'|] eqn:E; [|discriminate].
      intros [= <-]. simpl. rewrite find_set_same. eauto.
    + destruct (mkdirs (r ++ a :: p) (Dir [])) as [child'|] eqn:E; [|discriminate].
      intros [= <-]. simpl. rewrite find_set_same.
      eapply mkdirs_fresh; eauto.
Qed.

(** Writing a child of a directory keeps the directory. *)
Lemma put_child_keeps_dir (p : path) (c : string) (new n n' : node) :
  is_dir n p = true ->
  put (p ++ [c]) new n = Some n' ->
  is_dir n' p = true.
Proof.
  unfold is_dir. revert n n'. induction p as [|a p IH]; intros n n'; simpl.
  - destruct n as [x d|es]; [discriminate|]. intros _.
    destruct (find_entry c es); now intros [= <-].
  - destruct n as [x d|es]; [discriminate|].
    destruct (find_entry a es) as [child|] eqn:F; [|discriminate].
    intros Hd.
    destruct (put (p ++ [c]) new child) as [child'|] eqn:E; [|discriminate].
    intros [= <-]. simpl. rewrite find_set_same. eauto.
Qed.

Lemma remove_gone (p : path) (n n' : node) :
  remove p n = Some n' -> lookup p n' = None.
Proof.
  revert n n'. induction p as [|c p IH]; intros n n'; simpl; [discriminate|].
  destruct n as [x d|es]; [discriminate|].
  destruct p as [|c' p].
  - destruct (find_entry c es); [|discriminate].
    intros [= <-]. simpl. now rewrite find_remove_same.
  - destruct (find_entry c es) as [child|]; [|discriminate].
    destruct (remove (c' :: p) child) as [child'|] eqn:R; [|discriminate].
    intros [= <-]. cbn [lookup]. rewrite find_set_same. eauto.
Qed.

Lemma remove_succeeds (p : path) (n m : node) :
  p <> [] -> lookup p n = Some m -> exists n', remove p n = Some n'.
Proof.
  revert n. induction p as [|c p IH]; intros n Hp; [congruence|]. simpl.
  destruct n as [x d|es]; [discriminate|].
  destruct (find_entry c es) as [child|] eqn:F; [|discriminate].
  destruct p as [|c' p]; [eauto|].
  intros H. destruct (IH child) as [child' E]; [discriminate|exact H|].
  rewrite E. eauto.
Qed.

Lemma name_app (p q : path) : q <> [] -> name (p ++ q) = name q.
Proof.
  unfold name. intros Hq. induction p as [|c p IH]; simpl; auto.
  destruct (p ++ q) eqn:E; auto.
  apply app_eq_nil in E. destruct E. contradiction.
Qed.

(** What resolves below [n] is listed by [walk n]. *)
Lemma lookup_walk (q : path) (n m : node) :
  q <> [] -> lookup q n = Some m -> In (q, m) (walk n).
Proof.
  revert n. induction q as [|c q IH]; intros n Hq; [congruence|]. simpl.
  destruct n as [x d|es]; [discriminate|].
  destruct (find_entry c es) as [child|] eqn:F; [|discriminate].
  intros H. simpl. apply in_flat_map. exists (c, child). split.
  - now apply find_entry_In.
  - destruct q as [|c' q].
    + simpl in H. injection H as ->. now left.
    + right. apply in_map_iff. exists (c' :: q, m). split; auto.
      apply IH; [discriminate|exact H].
Qed.

Lemma walk_nonempty (n : node) (q : path) (m : node) :
  In (q, m) (walk n) -> q <> [].
Proof.
  destruct n as [x d|es]; simpl; [tauto|].
  intros H. apply in_flat_map in H. destruct H as [[k child] [_ H]].
  destruct H as [H|H].
  - injection H as <- _. discriminate.
  - apply in_map_iff in H. destruct H as [qm [H _]].
    injection H as <- _. discriminate.
Qed.

End FSFacts.

(** ** The effects of the primitives *)

Module Effects.

Import FS Py.
Local Open Scope list_scope.
Local Open Scope py_scope.

Lemma emits_nothing {A} (P : event -> Prop) (m : M A) :
  (forall w, exists r, m w = (r, w) /\ forall s, r <> Exit s) -> emits P m.
Proof.
  intros H w r w' E. destruct (H w) as [r0 [E0 Hr]].
  rewrite E0 in E. injection E as <- <-. split; [exact Hr|].
  exists []. auto.
Qed.

Lemma emits_ret {A} (P : event -> Prop) (a : A) : emits P (ret a).
Proof. apply emits_nothing. intros w. exists (Ret a). split; [reflexivity|discriminate]. Qed.

Lemma emits_raise {A} (P : event -> Prop) (e : exn) : emits P (@raise A e).
Proof. apply emits_nothing. intros w. exists (Raise e). split; [reflexivity|discriminate]. Qed.

Lemma emits_reads {A} (P : event -> Prop) (f : World -> A) : emits P (reads f).
Proof. apply emits_nothing. intros w. exists (Ret (f w)). split; [reflexivity|discriminate]. Qed.

Lemma emits_one {A} (P : event -> Prop) (m : M A) (e : event) :
  P e ->
  (forall w r w', m w = (r, w') ->
     (forall s, r <> Exit s) /\
     (w' = w \/ (trace w' = e :: trace w /\ (not_chdir e -> cwd w' = cwd w)))) ->
  emits P m.
Proof.
  intros He H w r w' E. destruct (H w r w' E) as [Hr [->|[Ht Hc]]].
  - split; [exact Hr|]. exists []. auto.
  - split; [exact Hr|]. exists [e]. repeat split; auto.
    intros F. inversion F; auto.
Qed.

Lemma emits_print (P : event -> Prop) (text : string) :
  P (EPrint text) -> emits P (print text).
Proof.
  intros He. apply (emits_one P _ (EPrint text) He).
  intros w r w' [= <- <-]. split; [discriminate|]. right. auto.
Qed.

Lemma emits_bind {A B} (P : event -> Prop) (m : M A) (k : A -> M B) :
  emits P m -> (forall a, emits P (k a)) -> emits P (bind m k).
Proof.
  intros Hm Hk w r w'. unfold bind.
  destruct (m w) as [[a|e|s] w1] eqn:E; intros H.
  - destruct (Hm _ _ _ E) as [_ [n1 [T1 [F1 C1]]]].
    destruct (Hk a _ _ _ H) as [Hr [n2 [T2 [F2 C2]]]].
    split; [exact Hr|]. exists (n2 ++ n1). rewrite T2, T1, app_assoc.
    repeat split; auto.
    + apply Forall_app; auto.
    + intros F. apply Forall_app in F. destruct F. rewrite C2, C1; auto.
  - injection H as <- <-. destruct (Hm _ _ _ E) as [_ Hn].
    split; [discriminate|exact Hn].
  - destruct (Hm _ _ _ E) as [Hr _]. exfalso. now apply (Hr s).
Qed.

Lemma emits_try_except {A} (P : event -> Prop) (body : M A)
      (classes : exn -> bool) (handler : exn -> M A) :
  emits P body -> (forall e, emits P (handler e)) ->
  emits P (try_except body classes handler).
Proof.
  intros Hb Hh w r w'. unfold try_except.
  destruct (body w) as [[a|e|s] w1] eqn:E; intros H.
  - injection H as <- <-. exact (Hb _ _ _ E).
  - destruct (classes e).
    + destruct (Hb _ _ _ E) as [_ [n1 [T1 [F1 C1]]]].
      destruct (Hh e _ _ _ H) as [Hr [n2 [T2 [F2 C2]]]].
      split; [exact Hr|]. exists (n2 ++ n1). rewrite T2, T1, app_assoc.
      repeat split; auto.
      * apply Forall_app; auto.
      * intros F. apply Forall_app in F. destruct F. rewrite C2, C1; auto.
    + injection H as <- <-. exact (Hb _ _ _ E).
  - injection H as <- <-. exact (Hb _ _ _ E).
Qed.

Lemma emits_when (P : event -> Prop) (b : bool) (m : M unit) :
  emits P m -> emits P (when b m).
Proof. destruct b; simpl; auto using emits_ret. Qed.

Lemma emits_for_each {X} (P : event -> Prop) (xs : list X) (body : X -> M unit) :
  (forall x, emits P (body x)) -> emits P (for_each xs body).
Proof.
  intros Hb. induction xs as [|x xs IH]; simpl.
  - apply emits_ret.
  - apply emits_bind; auto.
Qed.

Lemma emits_weaken {A} (P Q : event -> Prop) (m : M A) :
  (forall e, P e -> Q e) -> emits P m -> emits Q m.
Proof.
  intros HPQ Hm w r w' E. destruct (Hm _ _ _ E) as [Hr [new [T [F C]]]].
  split; [exact Hr|]. exists new. repeat split; auto.
  eapply Forall_impl; eauto.
Qed.

Lemma emits_chdir (P : event -> Prop) (p : path) :
  P (EChdir p) -> emits P (os_chdir p).
Proof.
  intros He. apply (emits_one P _ (EChdir p) He).
  intros w r w'. unfold os_chdir. destruct (is_dir (fs w) p).
  - intros [= <- <-]. split; [discriminate|]. right. simpl. tauto.
  - intros [= <- <-]. split; [discriminate|]. now left.
Qed.

Lemma emits_rmtree (P : event -> Prop) (p : path) :
  P (ERmtree p) -> emits P (shutil_rmtree p).
Proof.
  intros He. apply (emits_one P _ (ERmtree p) He).
  intros w r w'. unfold shutil_rmtree. destruct (is_dir (fs w) p).
  - destruct (remove p (fs w)); intros [= <- <-];
      (split; [discriminate|]); [right|left]; auto.
  - intros [= <- <-]. split; [discriminate|]. now left.
Qed.

Lemma emits_mkdir (P : event -> Prop) (p : path) :
  P (EMkdir p) -> emits P (path_mkdir p).
Proof.
  intros He. apply (emits_one P _ (EMkdir p) He).
  intros w r w'. unfold path_mkdir.
  destruct (mkdirs p (fs w)); intros [= <- <-];
    (split; [discriminate|]); [right|left]; auto.
Qed.

Lemma emits_copy2 (P : event -> Prop) (src dst : path) :
  (forall target, P (ECopy src target)) -> emits P (shutil_copy2 src dst).
Proof.
  intros He w r w'. unfold shutil_copy2.
  destruct (lookup src (fs w)) as [[x d|es]|].
  - set (target := if is_dir (fs w) dst then dst ++ [name src] else dst).
    destruct (path_eqb src target).
    { intros [= <- <-]. split; [discriminate|]. exists []. auto. }
    destruct (is_dir (fs w) target).
    { intros [= <- <-]. split; [discriminate|]. exists []. auto. }
    destruct (put target (File x d) (fs w)); intros [= <- <-].
    + split; [discriminate|]. exists [ECopy src target]. simpl. auto.
    + split; [discriminate|]. exists []. auto.
  - intros [= <- <-]. split; [discriminate|]. exists []. auto.
  - intros [= <- <-]. split; [discriminate|]. exists []. auto.
Qed.

Lemma emits_subprocess_run (P : event -> Prop) (spawn : Spawn)
      (cmd : list string) (dir : option path) (check : bool) :
  (forall d, P (EExec cmd d)) -> emits P (subprocess_run spawn cmd dir check).
Proof.
  intros He w r w'. unfold subprocess_run.
  set (d := match dir with Some d => d | None => cwd w end).
  destruct (st (spawn cmd d (fs w) (clock w))) as [code| |why].
  - destruct (check && negb (Z.eqb code 0)); intros [= <- <-];
      (split; [discriminate|]); exists [EExec cmd d]; simpl; auto.
  - intros [= <- <-]. split; [discriminate|]. exists [EExec cmd d]. simpl. auto.
  - intros [= <- <-]. split; [discriminate|]. exists [EExec cmd d]. simpl. auto.
Qed.

End Effects.

(** ** Build-system detection *)

Section Detection.

Import FS Py FSFacts.
Local Open Scope list_scope.

Variable host : Host.

Lemma detected_cases (self : CProjectBuilder) (w : World) :
  detected host self w =
  Ret (if has_marker self w "CMakeLists.txt" then CMAKE
       else if has_marker self w "configure.ac" || has_marker self w "configure"
            then AUTOTOOLS
            else if has_make_marker host self w then MAKE else UNKNOWN).
Proof.
  unfold detected, detect_build_system, has_make_marker, makefile_glob,
    has_marker, bind, print, path_exists, reads, ret, log. simpl.
  destruct (exists_ (fs w) (source_dir self ++ ["CMakeLists.txt"])); simpl; auto.
  destruct (exists_ (fs w) (source_dir self ++ ["configure.ac"]) ||
            exists_ (fs w) (source_dir self ++ ["configure"])); simpl; auto.
  destruct (exists_ (fs w) (source_dir self ++ ["Makefile"]) ||
            negb (Nat.eqb (List.length
              (glob (is_windows host) (fs w) (source_dir self) "makefile*")) 0));
    simpl; auto.
Qed.

(** Detection only prints. *)
Lemma detect_build_system_frame (self : CProjectBuilder) (w : World) :
  let w' := snd (detect_build_system host self w) in
  fs w' = fs w /\ cwd w' = cwd w /\ clock w' = clock w /\
  exists a b, trace w' = [EPrint a; EPrint b] ++ trace w.
Proof.
  unfold detect_build_system, bind, print, path_exists, reads, ret, log. simpl.
  destruct (exists_ (fs w) (source_dir self ++ ["CMakeLists.txt"])); simpl.
  { repeat split; eauto. }
  destruct (exists_ (fs w) (source_dir self ++ ["configure.ac"]) ||
            exists_ (fs w) (source_dir self ++ ["configure"])); simpl.
  { repeat split; eauto. }
  destruct (exists_ (fs w) (source_dir self ++ ["Makefile"]) ||
            negb (Nat.eqb (List.length
              (glob (is_windows host) (fs w) (source_dir self) "makefile*")) 0));
    simpl; repeat split; eauto.
Qed.

(** A directory entry whose name matches is found by [glob]. *)
Lemma glob_finds (ic : bool) (root : node) (d : path) (pat entry : string) :
  exists_ root (d ++ [entry]) = true ->
  Fnmatch.fnmatch ic pat entry = true ->
  In (d ++ [entry]) (glob ic root d pat).
Proof.
  unfold exists_, glob. rewrite lookup_app.
  destruct (lookup d root) as [[x c|es]|]; simpl; try discriminate.
  destruct (find_entry entry es) as [n|] eqn:F; [|discriminate].
  intros _ Hm. apply in_map_iff. exists (entry, n). split; auto.
  apply filter_In. split; auto using find_entry_In.
Qed.

Lemma glob_of_missing (ic : bool) (root : node) (d : path) (pat : string) :
  exists_ root d = false -> glob ic root d pat = [].
Proof.
  unfold exists_, glob. destruct (lookup d root) as [[x c|es]|]; auto; discriminate.
Qed.

Lemma exists_below_missing (root : node) (d : path) (file : string) :
  exists_ root d = false -> exists_ root (d ++ [file]) = false.
Proof.
  unfold exists_. destruct (lookup d root) eqn:E; [discriminate|].
  intros _. now rewrite (lookup_below_missing _ _ _ E).
Qed.

(** C2: [detect_build_system] returns one of the four kinds, decided in the
    order CMake, Autotools, Make, Unknown with the first match winning:
    [CMakeLists.txt] gives CMake also when a [Makefile] is present;
    otherwise [configure.ac] or [configure] gives Autotools, also with
    [configure] alone; otherwise a Make marker gives Make; otherwise the
    result is Unknown. *)
Theorem detect_build_system_precedence (self : CProjectBuilder) (w : World) :
  let has := has_marker self w in
  let r := detected host self w in
  (r = Ret CMAKE \/ r = Ret AUTOTOOLS \/ r = Ret MAKE \/ r = Ret UNKNOWN) /\
  (has "CMakeLists.txt" = true -> r = Ret CMAKE) /\
  (has "CMakeLists.txt" = true -> has "Makefile" = true -> r = Ret CMAKE) /\
  (has "CMakeLists.txt" = false ->
   has "configure.ac" = true \/ has "configure" = true -> r = Ret AUTOTOOLS) /\
  (has "CMakeLists.txt" = false -> has "configure.ac" = false ->
   has "configure" = true -> r = Ret AUTOTOOLS) /\
  (has "CMakeLists.txt" = false -> has "configure.ac" = false ->
   has "configure" = false -> has_make_marker host self w = true -> r = Ret MAKE) /\
  (has "CMakeLists.txt" = false -> has "configure.ac" = false ->
   has "configure" = false -> has_make_marker host self w = false -> r = Ret UNKNOWN).
Proof.
  intros has r. subst has r. rewrite detected_cases.
  destruct (has_marker self w "CMakeLists.txt");
    destruct (has_marker self w "configure.ac");
    destruct (has_marker self w "configure");
    destruct (has_make_marker host self w); simpl;
    repeat split; intros; try discriminate; auto;
    match goal with
    | H : _ \/ _ |- _ => destruct H; discriminate
    end.
Qed.

(** C6, as the code has it: with no CMake or Autotools marker, detection
    returns Make when [Makefile] exists or when an entry of the directory
    matches [makefile*] the way [glob] matches on the host, ignoring case
    on Windows and respecting it elsewhere. *)
Theorem detect_make_by_pattern (self : CProjectBuilder) (w : World)
        (entry : string) :
  has_marker self w "CMakeLists.txt" = false ->
  has_marker self w "configure.ac" = false ->
  has_marker self w "configure" = false ->
  has_marker self w entry = true ->
  entry = "Makefile" \/
  Fnmatch.fnmatch (is_windows host) "makefile*" entry = true ->
  detected host self w = Ret MAKE.
Proof.
  intros Hc Ha Hf He Hm. rewrite detected_cases, Hc, Ha, Hf. simpl.
  unfold has_make_marker. destruct Hm as [->|Hm].
  - now rewrite He.
  - apply (glob_finds _ _ _ _ _ He) in Hm. unfold makefile_glob.
    destruct (glob _ _ _ _); [destruct Hm|].
    simpl. now rewrite orb_true_r.
Qed.

(** C10: when the source directory does not exist, [detect_build_system]
    returns Unknown; it raises nothing and only prints. *)
Theorem detect_without_checkout (self : CProjectBuilder) (w : World) :
  exists_ (fs w) (source_dir self) = false ->
  detect_build_system host self w =
  (Ret UNKNOWN,
   log (EPrint "! No recognized build system detected")
       (log (EPrint "
Detecting build system...") w)).
Proof.
  intros H.
  pose proof (exists_below_missing _ _ "CMakeLists.txt" H) as H1.
  pose proof (exists_below_missing _ _ "configure.ac" H) as H2.
  pose proof (exists_below_missing _ _ "configure" H) as H3.
  pose proof (exists_below_missing _ _ "Makefile" H) as H4.
  pose proof (glob_of_missing (is_windows host) _ _ "makefile*" H) as H5.
  cbv [detect_build_system bind print path_exists reads ret log].
  cbn [fs cwd clock trace].
  rewrite H1. cbv beta iota. cbn [fs cwd clock trace].
  rewrite H2, H3. cbn [orb]. cbv beta iota. cbn [fs cwd clock trace].
  rewrite H4, H5. reflexivity.
Qed.

End Detection.

(** ** The effects of each method *)

Section MethodEffects.

Import FS Py Effects.
Local Open Scope list_scope.
Local Open Scope py_scope.

Variable host : Host.
Variable spawn : Spawn.

Ltac emits_step :=
  first
    [ apply emits_ret
    | apply emits_raise
    | apply emits_reads
    | apply emits_print; solve [exact I | simpl; auto]
    | apply emits_chdir; solve [exact I | simpl; auto]
    | apply emits_rmtree; solve [exact I | simpl; auto]
    | apply emits_mkdir; solve [exact I | simpl; auto]
    | apply emits_copy2; intros ?; solve [exact I | simpl; auto]
    | apply emits_subprocess_run; intros ?; solve [exact I | simpl; auto]
    | apply emits_when
    | apply emits_for_each; intros ?
    | apply emits_try_except; [|intros ?]
    | apply emits_bind; [|intros ?]
    | match goal with
      | |- emits _ (if ?b then _ else _) => destruct b
      | |- emits _ (match ?x with _ => _ end) => destruct x
      end ].

Ltac emits_all := repeat emits_step.

Lemma emits_os_path_exists (P : event -> Prop) (s : string) :
  emits P (os_path_exists host s).
Proof. unfold os_path_exists, path_exists. apply emits_reads. Qed.

Lemma emits_first_existing (P : event -> Prop) (paths : list string) :
  emits P (first_existing host paths).
Proof.
  induction paths as [|p paths IH]; simpl.
  - apply emits_ret.
  - apply emits_bind; [apply emits_os_path_exists|].
    intros []; [apply emits_ret|exact IH].
Qed.

Lemma emits_get_vs_install_path :
  emits diagnostic (get_vs_install_path host spawn).
Proof.
  unfold get_vs_install_path.
  apply emits_bind; [apply emits_os_path_exists|]. intros found.
  emits_all.
Qed.

Lemma emits_find_msbuild : emits diagnostic (find_msbuild host spawn).
Proof.
  unfold find_msbuild.
  apply emits_bind; [apply emits_get_vs_install_path|]. intros vs_path.
  apply emits_bind.
  - destruct (truthy_opt vs_path); [|apply emits_ret].
    apply emits_bind; [apply emits_os_path_exists|]. intros; apply emits_ret.
  - intros [m|]; [apply emits_ret|apply emits_first_existing].
Qed.

Lemma emits_probe_tool (tool found windows_help other_help : string)
      (missing_tools : list string) :
  emits diagnostic
        (probe_tool host spawn tool found windows_help other_help missing_tools).
Proof.
  unfold probe_tool. emits_all.
Qed.

Lemma emits_check_dependencies (self : CProjectBuilder) :
  emits diagnostic (check_dependencies host spawn self).
Proof.
  unfold check_dependencies.
  apply emits_bind; [apply emits_print; exact I|]. intros _.
  apply emits_bind; [apply emits_probe_tool|]. intros m1.
  apply emits_bind; [apply emits_probe_tool|]. intros m2.
  apply emits_bind; [apply emits_probe_tool|]. intros m3.
  destruct (is_windows host); [|apply emits_ret].
  apply emits_bind; [apply emits_find_msbuild|]. intros found.
  destruct (negb (truthy_opt found)); emits_all.
Qed.


Lemma emits_clean_directories (self : CProjectBuilder) :
  emits not_chdir (clean_directories self).
Proof. unfold clean_directories, path_exists. emits_all. Qed.

Lemma emits_clone_repository (self : CProjectBuilder) :
  emits not_chdir (clone_repository host spawn self).
Proof. unfold clone_repository, path_exists. emits_all. Qed.

Lemma emits_detect_build_system (self : CProjectBuilder) :
  emits is_print (detect_build_system host self).
Proof. unfold detect_build_system, path_exists. emits_all. Qed.

Lemma emits_build_cmake_project (self : CProjectBuilder) :
  emits not_chdir (build_cmake_project host spawn self).
Proof. unfold build_cmake_project. emits_all. Qed.

Lemma emits_copy_artifacts (self : CProjectBuilder) :
  emits not_chdir (copy_artifacts host self).
Proof.
  unfold copy_artifacts, copy_matching, copy_if_executable, path_is_file,
    os_access_x.
  emits_all.
Qed.

Lemma emits_make_install_or_copy (self : CProjectBuilder) :
  emits not_chdir (make_install_or_copy host spawn self).
Proof.
  unfold make_install_or_copy.
  apply emits_try_except; [emits_all|].
  intros _. apply emits_copy_artifacts.
Qed.

Lemma emits_build_autotools_project (self : CProjectBuilder) :
  emits anything (build_autotools_project host spawn self).
Proof. unfold build_autotools_project, path_exists. emits_all. Qed.

Lemma emits_build_make_project (self : CProjectBuilder) :
  emits anything (build_make_project host spawn self).
Proof.
  unfold build_make_project, make_configure_and_build, path_exists.
  emits_all.
Qed.

Lemma emits_build_project (self : CProjectBuilder) :
  emits anything (build_project host spawn self).
Proof.
  unfold build_project.
  apply emits_bind.
  { apply (emits_weaken is_print); [easy|apply emits_detect_build_system]. }
  intros detected. apply emits_bind; [|intros _; emits_all].
  destruct (BuildSystem_eqb detected CMAKE).
  { apply (emits_weaken not_chdir); [easy|apply emits_build_cmake_project]. }
  destruct (BuildSystem_eqb detected AUTOTOOLS).
  { apply emits_build_autotools_project. }
  destruct (BuildSystem_eqb detected MAKE).
  { apply emits_build_make_project. }
  apply emits_raise.
Qed.

Lemma emits_run_stages (self : CProjectBuilder) :
  emits anything (run_stages host spawn self).
Proof.
  unfold run_stages.
  apply emits_bind.
  { apply (emits_weaken not_chdir); [easy|apply emits_clean_directories]. }
  intros _. apply emits_bind.
  { apply (emits_weaken not_chdir); [easy|apply emits_clone_repository]. }
  intros _. apply emits_bind; [apply emits_build_project|].
  intros self'. emits_all.
Qed.

End MethodEffects.

(** ** The orchestrator *)

Section Orchestrator.

Import FS Py Effects.
Local Open Scope list_scope.
Local Open Scope py_scope.

Variable host : Host.
Variable spawn : Spawn.

Lemma report_failure_prints (e : exn) (w : World) :
  report_failure host e w =
  (Exit 1, mkWorld (fs w) (cwd w) (clock w) (troubleshooting host e ++ trace w)).
Proof.
  unfold report_failure, troubleshooting, bind, print, when, sys_exit, ret, log.
  simpl. destruct (is_windows host); reflexivity.
Qed.

Lemma run_unfold (self : CProjectBuilder) (w : World) :
  run host spawn self w =
  match check_dependencies host spawn self (started self w) with
  | (Ret (_ :: _, _), w1) =>
      (Exit 1,
       log (EPrint "
Missing required tools. Please install them and try again.") w1)
  | (Ret ([], self'), w1) =>
      try_except (run_stages host spawn self') (fun _ => true)
                 (report_failure host) w1
  | (Raise e, w1) => (Raise e, w1)
  | (Exit s, w1) => (Exit s, w1)
  end.
Proof.
  unfold run, bind at 1 2, print, started.
  destruct (check_dependencies host spawn self _) as [[[missing self']|e|s] w1];
    auto.
  destruct missing; reflexivity.
Qed.

(** C1: when [check_dependencies] returns a non-empty list, [run] prints
    one more message and exits with status 1.  Cleaning, cloning,
    detection and the build drivers are not reached: from the start of the
    run to its exit the log holds messages and the version and
    installation queries of [check_dependencies], nothing else, and the
    working directory is the one the run started in. *)
Theorem run_aborts_on_missing_tools
        (self self' : CProjectBuilder) (missing : list string) (w w1 : World) :
  check_dependencies host spawn self (started self w) = (Ret (missing, self'), w1) ->
  missing <> [] ->
  let w' := log (EPrint "
Missing required tools. Please install them and try again.") w1 in
  run host spawn self w = (Exit 1, w') /\
  exit_status (fst (run host spawn self w)) = 1%Z /\
  fs w' = fs w1 /\
  cwd w' = cwd w /\
  exists new, trace w' = new ++ trace w /\ Forall diagnostic new.
Proof.
  intros H Hm w'. subst w'.
  assert (R : run host spawn self w =
              (Exit 1, log (EPrint "
Missing required tools. Please install them and try again.") w1)).
  { rewrite run_unfold, H. destruct missing; [congruence|reflexivity]. }
  rewrite R. split; [reflexivity|]. split; [reflexivity|].
  split; [reflexivity|]. split.
  - destruct (emits_check_dependencies host spawn self _ _ _ H)
      as [_ [new [T [F C]]]].
    simpl. rewrite C; [reflexivity|].
    eapply Forall_impl; [|exact F]. intros [] D; simpl in *; tauto.
  - destruct (emits_check_dependencies host spawn self _ _ _ H)
      as [_ [new [T [F C]]]].
    exists (EPrint "
Missing required tools. Please install them and try again."
            :: new ++ [EPrint (cat ["Starting build process for ";
                                    project_name self; "..."])]).
    split.
    + simpl. rewrite T. simpl. now rewrite <- app_assoc.
    + constructor; [exact I|]. apply Forall_app. split; [exact F|].
      constructor; [exact I|constructor].
Qed.

Lemma build_project_unknown (self : CProjectBuilder) (w : World) :
  detected host self w = Ret UNKNOWN ->
  build_project host spawn self w =
  (Raise (Exception_ "No supported build system detected"),
   snd (detect_build_system host self w)).
Proof.
  unfold detected, build_project, bind at 1.
  destruct (detect_build_system host self w) as [[b|e|s] w4]; simpl;
    try discriminate.
  now intros [= ->].
Qed.

(** C7: when the dependencies are present, cleaning and cloning succeed
    and detection returns Unknown, [run] ends with exit status 1; after
    the checkout it only prints: no process is started (the clock stands
    still) and the disk, with the checkout on it, is left as it was. *)
Theorem unknown_build_system_is_fatal
        (self self1 : CProjectBuilder) (w w1 w3 : World) :
  check_dependencies host spawn self (started self w) = (Ret ([], self1), w1) ->
  (clean_directories self1 ;; clone_repository host spawn self1) w1
    = (Ret tt, w3) ->
  detected host self1 w3 = Ret UNKNOWN ->
  exists w',
    run host spawn self w = (Exit 1, w') /\
    exit_status (fst (run host spawn self w)) = 1%Z /\
    fs w' = fs w3 /\ cwd w' = cwd w3 /\ clock w' = clock w3 /\
    exists new, trace w' = new ++ trace w3 /\ Forall is_print new.
Proof.
  intros Hc Hs Hd.
  pose proof (build_project_unknown self1 w3 Hd) as Hb.
  destruct (detect_build_system_frame host self1 w3) as [F1 [F2 [F3 [a [b F4]]]]].
  set (w4 := snd (detect_build_system host self1 w3)) in *.
  assert (Hr : run_stages host spawn self1 w1 =
               (Raise (Exception_ "No supported build system detected"), w4)).
  { unfold run_stages. unfold bind at 1 in Hs. unfold bind at 1.
    destruct (clean_directories self1 w1) as [[[]|e|s] w2]; try discriminate.
    unfold bind at 1. rewrite Hs. unfold bind at 1. now rewrite Hb. }
  assert (R : run host spawn self w =
              report_failure host
                (Exception_ "No supported build system detected") w4).
  { rewrite run_unfold, Hc. unfold try_except. now rewrite Hr. }
  rewrite R, report_failure_prints. eexists. split; [reflexivity|].
  simpl. split; [reflexivity|]. split; [exact F1|]. split; [exact F2|].
  split; [exact F3|].
  exists (troubleshooting host (Exception_ "No supported build system detected")
            ++ [EPrint a; EPrint b]).
  split.
  - rewrite F4. now rewrite <- app_assoc.
  - apply Forall_app. split.
    + unfold troubleshooting. destruct (is_windows host); repeat constructor.
    + repeat constructor.
Qed.

(** C8: with the dependencies present, the stages of [run] end in one of
    two ways.  If they raise, the exception is handled by the one
    [except] clause of [run]: the error and the troubleshooting tips are
    printed, once, and the exit status is 1.  If they complete, the last
    thing printed is the location of the output directory and the exit
    status is 0. *)
Theorem run_reports_every_failure
        (self self1 : CProjectBuilder) (w w1 : World) :
  check_dependencies host spawn self (started self w) = (Ret ([], self1), w1) ->
  (forall e w2,
      run_stages host spawn self1 w1 = (Raise e, w2) ->
      run host spawn self w =
      (Exit 1, mkWorld (fs w2) (cwd w2) (clock w2) (troubleshooting host e ++ trace w2))
      /\ exit_status (fst (run host spawn self w)) = 1%Z) /\
  (forall w2,
      run_stages host spawn self1 w1 = (Ret tt, w2) ->
      run host spawn self w = (Ret tt, w2) /\
      exit_status (fst (run host spawn self w)) = 0%Z /\
      exists before,
        trace w2 =
        EPrint (cat ["Output files can be found in: ";
                     str_path host (output_dir self1)]) :: before) /\
  (exists r w2,
      run_stages host spawn self1 w1 = (r, w2) /\
      ((exists e, r = Raise e) \/ r = Ret tt)).
Proof.
  intros Hc. split; [|split].
  - intros e w2 H.
    assert (R : run host spawn self w = report_failure host e w2).
    { rewrite run_unfold, Hc. unfold try_except. now rewrite H. }
    rewrite R, report_failure_prints. split; reflexivity.
  - intros w2 H.
    assert (R : run host spawn self w = (Ret tt, w2)).
    { rewrite run_unfold, Hc. unfold try_except. now rewrite H. }
    rewrite R. split; [reflexivity|]. split; [reflexivity|].
    revert H. unfold run_stages. unfold bind at 1.
    destruct (clean_directories self1 w1) as [[[]|e|s] wa]; try discriminate.
    unfold bind at 1.
    destruct (clone_repository host spawn self1 wa) as [[[]|e|s] wb];
      try discriminate.
    unfold bind at 1.
    destruct (build_project host spawn self1 wb) as [[self2|e|s] wc] eqn:B;
      try discriminate.
    unfold bind, print, log. simpl. intros [= <-]. simpl.
    assert (output_dir self2 = output_dir self1) as ->; eauto.
    revert B. unfold build_project. unfold bind at 1.
    destruct (detect_build_system host self1 wb) as [[d|e|s] wd];
      try discriminate.
    unfold bind at 1.
    match goal with
    | |- context [(if ?c then ?x else ?y) wd] =>
        destruct ((if c then x else y) wd) as [[[]|e|s] we]
    end; try discriminate.
    unfold bind, print, ret. simpl. now intros [= <- _].
  - destruct (run_stages host spawn self1 w1) as [r w2] eqn:E.
    exists r, w2. split; auto.
    destruct (emits_run_stages host spawn self1 _ _ _ E) as [Hr _].
    destruct r as [[]|e|s]; eauto. now destruct (Hr s).
Qed.

End Orchestrator.

(** ** Fetching the repository *)

Section Fetch.

Import FS Py FSFacts.
Local Open Scope list_scope.
Local Open Scope py_scope.

Variable host : Host.
Variable spawn : Spawn.

Lemma exists_not_file_is_dir (root : node) (p : path) :
  exists_ root p = true -> is_file root p = false -> is_dir root p = true.
Proof.
  unfold exists_, is_file, is_dir.
  destruct (lookup p root) as [[x d|es]|]; auto; discriminate.
Qed.

(** The statements of [clone_repository] before the first child process. *)
Lemma clone_repository_clears (self : CProjectBuilder) (w : World) :
  source_dir self <> [] ->
  is_file (fs w) (source_dir self) = false ->
  exists cleared,
    (if exists_ (fs w) (source_dir self)
     then remove (source_dir self) (fs w) = Some cleared
     else cleared = fs w) /\
    lookup (source_dir self) cleared = None /\
    clone_repository host spawn self w =
    (subprocess_run spawn (clone_command host self) None true ;;
     subprocess_run spawn submodule_command (Some (source_dir self)) true ;;
     print "✓ Repository and submodules cloned successfully")
      (mkWorld cleared (cwd w) (clock w)
               ((if exists_ (fs w) (source_dir self)
                 then [ERmtree (source_dir self)] else [])
                ++ cloning_message self :: trace w)).
Proof.
  intros Hne Hnf.
  unfold clone_repository. unfold bind at 1 2 3.
  unfold print at 1, path_exists, reads, log. cbn [fs cwd clock trace].
  destruct (exists_ (fs w) (source_dir self)) eqn:E.
  - pose proof (exists_not_file_is_dir _ _ E Hnf) as D.
    assert (exists m, lookup (source_dir self) (fs w) = Some m) as [m L].
    { unfold exists_ in E. destruct (lookup (source_dir self) (fs w)); eauto.
      discriminate. }
    destruct (remove_succeeds _ _ _ Hne L) as [cleared R].
    exists cleared. split; [exact R|]. split; [exact (remove_gone _ _ _ R)|].
    unfold when, shutil_rmtree. cbn [fs cwd clock trace].
    rewrite D, R. reflexivity.
  - exists (fs w). split; [reflexivity|]. split.
    + unfold exists_ in E. destruct (lookup (source_dir self) (fs w)); auto.
      discriminate.
    + unfold when, ret. reflexivity.
Qed.

(** C9: [clone_repository] removes an existing checkout first, so that git
    starts on a disk without it; the clone command carries [--branch]
    exactly when a non-empty branch was given; the submodule update runs
    in the checkout after a successful clone, and only then.  A step that
    fails ends the method with an exception, and the disk is left as the
    failed step left it: nothing is removed afterwards. *)
Theorem clone_repository_steps (self : CProjectBuilder) (w : World) :
  source_dir self <> [] ->
  is_file (fs w) (source_dir self) = false ->
  let src := source_dir self in
  let present := exists_ (fs w) src in
  let cmd := clone_command host self in
  (forall b, branch self = Some b -> b <> "" ->
             cmd = ["git"; "clone"; "--branch"; b; github_url self;
                    str_path host src]) /\
  (branch self = None \/ branch self = Some "" ->
   cmd = ["git"; "clone"; github_url self; str_path host src]) /\
  exists cleared,
    (if present then remove src (fs w) = Some cleared else cleared = fs w) /\
    lookup src cleared = None /\
    let r1 := spawn cmd (cwd w) cleared (clock w) in
    let r2 := spawn submodule_command src (fs_after r1) (S (clock w)) in
    let t1 := EExec cmd (cwd w)
                :: (if present then [ERmtree src] else [])
                ++ cloning_message self :: trace w in
    let t2 := EExec submodule_command src :: t1 in
    (st r1 <> Exited 0 ->
     exists e disk,
       clone_repository host spawn self w =
       (Raise e, mkWorld disk (cwd w) (S (clock w)) t1) /\
       (disk = fs_after r1 \/ disk = cleared) /\
       forall code, st r1 = Exited code ->
                    e = CalledProcessError code cmd /\ disk = fs_after r1) /\
    (st r1 = Exited 0 -> st r2 <> Exited 0 ->
     exists e disk,
       clone_repository host spawn self w =
       (Raise e, mkWorld disk (cwd w) (S (S (clock w))) t2) /\
       (disk = fs_after r2 \/ disk = fs_after r1) /\
       forall code, st r2 = Exited code ->
                    e = CalledProcessError code submodule_command /\
                    disk = fs_after r2) /\
    (st r1 = Exited 0 -> st r2 = Exited 0 ->
     clone_repository host spawn self w =
     (Ret tt,
      mkWorld (fs_after r2) (cwd w) (S (S (clock w)))
              (EPrint "✓ Repository and submodules cloned successfully" :: t2))).
Proof.
  intros Hne Hnf src present cmd. split; [|split].
  - intros b Hb Hnz. subst cmd. unfold clone_command. rewrite Hb. simpl.
    destruct b; [congruence|reflexivity].
  - intros [Hb|Hb]; subst cmd; unfold clone_command; rewrite Hb; reflexivity.
  - destruct (clone_repository_clears self w Hne Hnf) as [cleared [Hc [Hl Hr]]].
    exists cleared. split; [exact Hc|]. split; [exact Hl|].
    intros r1 r2 t1 t2. rewrite Hr. clear Hr.
    fold src present cmd.
    split; [|split].
    + intros H1.
      unfold bind at 1, subprocess_run at 1. cbn [fs cwd clock trace].
      fold r1. destruct (st r1) as [code| |why] eqn:S1.
      * assert (Z.eqb code 0 = false) as Hz.
        { apply Z.eqb_neq. congruence. }
        simpl. rewrite Hz. simpl.
        exists (CalledProcessError code cmd), (fs_after r1).
        split; [reflexivity|]. split; [now left|].
        intros c [= <-]. auto.
      * do 2 eexists. split; [reflexivity|]. split; [now right|].
        intros c; discriminate.
      * do 2 eexists. split; [reflexivity|]. split; [now right|].
        intros c; discriminate.
    + intros H1 H2.
      unfold bind at 1, subprocess_run at 1. cbn [fs cwd clock trace].
      fold r1. rewrite H1. simpl.
      unfold bind at 1, subprocess_run at 1. cbn [fs cwd clock trace].
      fold r2. fold t1.
      destruct (st r2) as [code| |why] eqn:S2.
      * assert (Z.eqb code 0 = false) as Hz.
        { apply Z.eqb_neq. congruence. }
        simpl. rewrite Hz. simpl.
        exists (CalledProcessError code submodule_command), (fs_after r2).
        split; [reflexivity|]. split; [now left|].
        intros c [= <-]. auto.
      * do 2 eexists. split; [reflexivity|]. split; [now right|].
        intros c; discriminate.
      * do 2 eexists. split; [reflexivity|]. split; [now right|].
        intros c; discriminate.
    + intros H1 H2.
      unfold bind at 1, subprocess_run at 1. cbn [fs cwd clock trace].
      fold r1. rewrite H1. simpl.
      unfold bind at 1, subprocess_run at 1. cbn [fs cwd clock trace].
      fold r2. rewrite H2. reflexivity.
Qed.

End Fetch.

(** ** The working directory of the Autotools and Make drivers *)

Section WorkingDirectory.

Import FS Py Effects.
Local Open Scope list_scope.
Local Open Scope py_scope.

Variable host : Host.
Variable spawn : Spawn.

Lemma lands_chdir (p : path) : lands p (os_chdir p).
Proof.
  intros w r w'. unfold os_chdir. destruct (is_dir (fs w) p);
    intros [= <- <-]; repeat split; try discriminate; auto.
Qed.

Lemma lands_bind {A} (p : path) (m : M A) (k : A -> M unit) :
  emits not_chdir m -> (forall a, lands p (k a)) -> lands p (bind m k).
Proof.
  intros Hm Hk w r w'. unfold bind.
  destruct (m w) as [[a|e|s] w1] eqn:E; intros H.
  - destruct (Hm _ _ _ E) as [_ [new [_ [F C]]]].
    destruct (Hk a _ _ _ H) as [Hr [Hret Hraise]].
    split; [exact Hr|]. split; [exact Hret|].
    intros e He. rewrite (Hraise e He). apply C.
    eapply Forall_impl; [|exact F]. auto.
  - injection H as <- <-.
    destruct (Hm _ _ _ E) as [_ [new [_ [F C]]]].
    split; [discriminate|]. split; [discriminate|].
    intros _ _. apply C. eapply Forall_impl; [|exact F]. auto.
  - destruct (Hm _ _ _ E) as [Hr _]. now destruct (Hr s).
Qed.

(** A driver body that starts with a message and [os.chdir(src)] and then
    lands in [root]. *)
Lemma chdir_then_lands (src root : path) (text : string) (rest : M unit)
      (w : World) (r : outcome unit) (w' : World) :
  lands root rest ->
  (print text ;; os_chdir src ;; rest) w = (r, w') ->
  (forall s, r <> Exit s) /\
  (r = Ret tt -> cwd w' = root) /\
  (forall e, r = Raise e ->
             cwd w' = if is_dir (fs w) src then src else cwd w).
Proof.
  intros Hrest. unfold bind at 1, print, log. unfold bind at 1, os_chdir.
  cbn [fs cwd clock trace].
  destruct (is_dir (fs w) src).
  - intros H. destruct (Hrest _ _ _ H) as [Hr [Hret Hraise]].
    split; [exact Hr|]. split; [exact Hret|].
    intros e He. now rewrite (Hraise e He).
  - intros [= <- <-]. split; [discriminate|]. split; [discriminate|].
    reflexivity.
Qed.

Lemma chdir_prefix_assoc {C} (text : string) (src : path) (rest : M unit)
      (k : unit -> M C) (w : World) :
  bind (print text ;; os_chdir src ;; rest) k w =
  (print text ;; os_chdir src ;; bind rest k) w.
Proof.
  unfold bind, print, os_chdir, log. cbn [fs cwd clock trace].
  destruct (is_dir (fs w) src); reflexivity.
Qed.

Lemma autotools_working_directory (self : CProjectBuilder)
      (w : World) (r : outcome unit) (w' : World) :
  build_autotools_project host spawn self w = (r, w') ->
  (forall s, r <> Exit s) /\
  (r = Ret tt -> cwd w' = project_root self) /\
  (forall e, r = Raise e ->
             cwd w' = if is_dir (fs w) (source_dir self)
                      then source_dir self else cwd w).
Proof.
  unfold build_autotools_project. apply chdir_then_lands.
  unfold path_exists.
  repeat (apply lands_bind; [|intros ?]);
    try apply lands_chdir;
    repeat first
      [ apply emits_reads | apply emits_when | apply emits_ret
      | apply emits_print; exact I
      | apply emits_subprocess_run; intros ?; exact I
      | apply emits_bind; [|intros ?] ].
Qed.

Lemma make_working_directory (self : CProjectBuilder)
      (w : World) (r : outcome unit) (w' : World) :
  build_make_project host spawn self w = (r, w') ->
  (forall s, r <> Exit s) /\
  (r = Ret tt -> cwd w' = project_root self) /\
  (forall e, r = Raise e ->
             cwd w' = if is_dir (fs w) (source_dir self)
                      then source_dir self else cwd w).
Proof.
  unfold build_make_project, make_configure_and_build.
  rewrite chdir_prefix_assoc. apply chdir_then_lands.
  apply lands_bind.
  - unfold path_exists.
    repeat first
      [ apply emits_reads | apply emits_when | apply emits_ret
      | apply emits_print; exact I
      | apply emits_subprocess_run; intros ?; exact I
      | apply emits_bind; [|intros ?] ].
  - intros _. apply lands_bind; [|intros _; apply lands_chdir].
    apply (emits_make_install_or_copy host spawn).
Qed.

(** C4, as the code has it: each of the two drivers ends in the project
    root, the script's directory, when it completes; when one of its
    steps raises, the working directory is not changed back: it is the
    source directory if the driver could enter it, and the directory the
    driver started in otherwise. *)
Theorem driver_working_directory
        (driver : CProjectBuilder -> M unit) (self : CProjectBuilder)
        (w : World) (r : outcome unit) (w' : World) :
  In driver [build_autotools_project host spawn; build_make_project host spawn] ->
  driver self w = (r, w') ->
  (r = Ret tt -> cwd w' = project_root self) /\
  (forall e, r = Raise e ->
             cwd w' = if is_dir (fs w) (source_dir self)
                      then source_dir self else cwd w).
Proof.
  intros [<-|[<-|[]]] H.
  - exact (proj2 (autotools_working_directory self w r w' H)).
  - exact (proj2 (make_working_directory self w r w' H)).
Qed.

End WorkingDirectory.

(** ** The fallback of the Make driver *)

Section MakeFallback.

Import FS Py FSFacts Effects.
Local Open Scope list_scope.
Local Open Scope py_scope.

Variable host : Host.
Variable spawn : Spawn.
Variable self : CProjectBuilder.
Hypothesis layout : laid_out self.

Local Abbreviation src := (source_dir self).
Local Abbreviation out := (output_dir self).

Lemma put_in_output_keeps_source (n : string) (new root root' : node) (q : path) :
  put (out ++ [n]) new root = Some root' ->
  lookup (src ++ q) root' = lookup (src ++ q) root.
Proof.
  destruct layout as [Hs Ho]. rewrite Hs, Ho.
  rewrite <- !app_assoc. simpl. apply put_diverge. discriminate.
Qed.

Lemma mkdir_output_keeps_source (root root' : node) (q : path) :
  mkdirs out root = Some root' ->
  lookup (src ++ q) root' = lookup (src ++ q) root.
Proof.
  destruct layout as [Hs Ho]. rewrite Hs, Ho.
  rewrite <- !app_assoc. simpl. apply mkdirs_diverge. discriminate.
Qed.

Lemma put_in_output_keeps_collected (n m : string) (d : string)
      (root root' : node) :
  put (out ++ [n]) (File true d) root = Some root' ->
  collected self m root -> collected self m root'.
Proof.
  intros P [d0 L]. unfold collected.
  destruct (String.eqb n m) eqn:E.
  - apply String.eqb_eq in E. subst m. exists d. now apply (put_same _ _ _ _ P).
  - exists d0. rewrite <- L.
    eapply (put_diverge out n m [] []); [|exact P].
    intros ->. now rewrite String.eqb_refl in E.
Qed.

Lemma copy_if_executable_step (root : node) (before : list event)
      (q : path) (w w' : World) :
  copying self root before w ->
  copy_if_executable self (src ++ q) w = (Ret tt, w') ->
  copying self root before w' /\
  (forall m, collected self m (fs w) -> collected self m (fs w')) /\
  (forall d, lookup (src ++ q) root = Some (File true d) ->
             collected self (name (src ++ q)) (fs w')).
Proof.
  intros [Ha [Hb [new [Ht Hf]]]].
  unfold copy_if_executable, bind, path_is_file, os_access_x, reads.
  unfold is_file at 1, access_x at 1. rewrite Ha.
  destruct (lookup (src ++ q) root) as [[[|] d|es]|] eqn:L; simpl;
    try (intros [= <-]; split; [repeat split; eauto|];
         split; [auto|intros; discriminate]).
  unfold shutil_copy2. rewrite Ha, L. rewrite Hb.
  destruct (path_eqb (src ++ q) (out ++ [name (src ++ q)])); [discriminate|].
  destruct (is_dir (fs w) (out ++ [name (src ++ q)])); [discriminate|].
  destruct (put (out ++ [name (src ++ q)]) (File true d) (fs w))
    as [root'|] eqn:P; [|discriminate].
  intros [= <-]. cbn [fs cwd clock trace]. split; [split; [|split]|split].
  - intros q'. rewrite <- Ha. eapply put_in_output_keeps_source; eauto.
  - eapply put_child_keeps_dir; eauto.
  - exists (ECopy (src ++ q) (out ++ [name (src ++ q)]) :: new).
    rewrite Ht. split; [reflexivity|]. constructor; [|exact Hf].
    simpl. unfold is_file, access_x. rewrite L. auto.
  - intros m. eapply put_in_output_keeps_collected; eauto.
  - intros d' _. exists d. eapply put_same; eauto.
Qed.

Lemma copy_loop (root : node) (before : list event) (files : list path) :
  Forall (fun f => exists q, f = src ++ q) files ->
  forall w w',
    copying self root before w ->
    for_each files (copy_if_executable self) w = (Ret tt, w') ->
    copying self root before w' /\
    (forall m, collected self m (fs w) -> collected self m (fs w')) /\
    (forall f d, In f files -> lookup f root = Some (File true d) ->
                 collected self (name f) (fs w')).
Proof.
  induction 1 as [|f files [q ->] _ IH]; intros w w' Hc; simpl.
  - unfold ret. intros [= <-]. split; [exact Hc|]. split; [auto|].
    intros ? ? [].
  - unfold bind at 1.
    destruct (copy_if_executable self (src ++ q) w) as [[[]|e|s] w1] eqn:E;
      try discriminate.
    intros Hrest.
    destruct (copy_if_executable_step _ _ _ _ _ Hc E) as [Hc1 [Hm1 Hn1]].
    destruct (IH _ _ Hc1 Hrest) as [Hc2 [Hm2 Hn2]].
    split; [exact Hc2|]. split; [auto|].
    intros f d [<-|Hin] L; eauto.
Qed.

Lemma fnmatch_star (ic : bool) (s : string) : Fnmatch.fnmatch ic "*" s = true.
Proof.
  assert (forall t, Fnmatch.matches "*" t = true) as H.
  { induction t as [|c t IH]; simpl; auto. }
  destruct ic; simpl; apply H.
Qed.

Lemma rglob_under (ic : bool) (root : node) (d : path) (pat : string) :
  Forall (fun f => exists q, f = d ++ q) (rglob ic root d pat).
Proof.
  unfold rglob. destruct (lookup d root); [|constructor].
  apply Forall_forall. intros f Hin. apply in_map_iff in Hin.
  destruct Hin as [qm [<- _]]. eauto.
Qed.

Lemma rglob_star_all (ic : bool) (root : node) (d q : path) (m : node) :
  q <> [] -> lookup (d ++ q) root = Some m ->
  In (d ++ q) (rglob ic root d "*").
Proof.
  intros Hq. rewrite lookup_app. unfold rglob.
  destruct (lookup d root) as [n|]; [|discriminate].
  intros L. apply in_map_iff. exists (q, m). split; auto.
  apply filter_In. split; [now apply lookup_walk|apply fnmatch_star].
Qed.

Lemma copy_matching_step (root : node) (before : list event) (ext : string)
      (w w' : World) :
  copying self root before w ->
  copy_matching host self ext w = (Ret tt, w') ->
  copying self root before w' /\
  (forall m, collected self m (fs w) -> collected self m (fs w')) /\
  (ext = "" ->
   forall q d, q <> [] -> lookup (src ++ q) root = Some (File true d) ->
               collected self (name q) (fs w')).
Proof.
  intros Hc. unfold copy_matching, bind at 1, reads. intros H.
  destruct (copy_loop root before _ (rglob_under _ _ _ _) _ _ Hc H)
    as [Hc' [Hm Hn]].
  split; [exact Hc'|]. split; [exact Hm|].
  intros -> q d Hq L. rewrite <- (name_app src q Hq).
  apply (Hn _ d); [|exact L]. simpl.
  destruct Hc as [Ha _]. rewrite <- Ha in L.
  eapply rglob_star_all; eauto.
Qed.

Lemma copy_matching_loop (root : node) (before : list event)
      (exts : list string) :
  forall w w',
    copying self root before w ->
    for_each exts (copy_matching host self) w = (Ret tt, w') ->
    copying self root before w' /\
    (forall m, collected self m (fs w) -> collected self m (fs w')).
Proof.
  induction exts as [|ext exts IH]; intros w w' Hc; simpl.
  - unfold ret. intros [= <-]. auto.
  - unfold bind at 1.
    destruct (copy_matching host self ext w) as [[[]|e|s] w1] eqn:E;
      try discriminate.
    intros Hrest.
    destruct (copy_matching_step _ _ _ _ _ Hc E) as [Hc1 [Hm1 _]].
    destruct (IH _ _ Hc1 Hrest) as [Hc2 Hm2]. auto.
Qed.

(** What a completed fallback leaves behind. *)
Lemma copy_artifacts_collects (w w' : World) :
  copy_artifacts host self w = (Ret tt, w') ->
  (forall q d, q <> [] -> lookup (src ++ q) (fs w) = Some (File true d) ->
               collected self (name q) (fs w')) /\
  cwd w' = cwd w /\
  exists new,
    trace w' =
    new ++ EMkdir out
        :: EPrint "! Make install failed - copying build artifacts manually"
        :: trace w /\
    Forall (copy_of_executable self (fs w)) new.
Proof.
  intros H.
  assert (cwd w' = cwd w) as Hcwd.
  { destruct (emits_copy_artifacts host self _ _ _ H) as [_ [new [_ [F C]]]].
    apply C. exact F. }
  revert H.
  unfold copy_artifacts, bind at 1 2, print, path_mkdir, log.
  cbn [fs cwd clock trace].
  destruct (mkdirs out (fs w)) as [made|] eqn:M; [|discriminate].
  set (w1 := mkWorld made _ _ _).
  assert (copying self (fs w) (trace w1) w1) as Hc.
  { split; [|split].
    - intros q. simpl. eapply mkdir_output_keeps_source; eauto.
    - simpl. eapply mkdirs_is_dir; eauto.
    - exists []. auto. }
  unfold artifact_extensions. cbn [for_each]. unfold bind at 1.
  destruct (copy_matching host self "" w1) as [[[]|e|s] w2] eqn:E;
    try discriminate.
  intros Hrest.
  destruct (copy_matching_step _ _ _ _ _ Hc E) as [Hc1 [_ Hall]].
  destruct (copy_matching_loop _ _ [".exe"; ".dll"; ".so"; ".dylib"]
                               _ _ Hc1 Hrest) as [[_ [_ Hnew]] Hm].
  split; [|split; [exact Hcwd|exact Hnew]].
  intros q d Hq L. apply Hm. eapply Hall; eauto.
Qed.

End MakeFallback.

Section MakeDriver.

Import FS Py FSFacts Effects.
Local Open Scope list_scope.
Local Open Scope py_scope.

Variable host : Host.
Variable spawn : Spawn.

Lemma make_install_or_copy_cases (self : CProjectBuilder) (w1 : World) :
  make_install_or_copy host spawn self w1 =
  match st (spawn ["make"; "install"] (cwd w1) (fs w1) (clock w1)) with
  | Exited code =>
      if Z.eqb code 0 then (Ret tt, after_install spawn w1)
      else copy_artifacts host self (after_install spawn w1)
  | NotFound => (Raise (FileNotFoundError "make"), after_install spawn w1)
  | CannotStart why => (Raise (OSError why), after_install spawn w1)
  end.
Proof.
  unfold make_install_or_copy, try_except, bind, print, subprocess_run,
    after_install, log, ret.
  cbn [fs cwd clock trace].
  destruct (st (spawn ["make"; "install"] (cwd w1) (fs w1) (clock w1)))
    as [code| |why]; try reflexivity.
  destruct (Z.eqb code 0); reflexivity.
Qed.

(** What the Make driver does after [make install]: it falls back exactly
    when the command exits with a non-zero status; a fallback that
    completes has copied into the output directory, flat, the regular
    files of the source tree that are executable, whatever their
    extension, and no others.  When [make install] succeeds there is no
    fallback, and when it cannot be started the driver raises. *)
Lemma make_install_fallback (self : CProjectBuilder) (w w1 : World) :
  laid_out self ->
  make_configure_and_build host spawn self w = (Ret tt, w1) ->
  let r := spawn ["make"; "install"] (cwd w1) (fs w1) (clock w1) in
  let w2 := after_install spawn w1 in
  (st r = Exited 0 ->
   build_make_project host spawn self w = os_chdir (project_root self) w2) /\
  (st r = NotFound ->
   build_make_project host spawn self w =
   (Raise (FileNotFoundError "make"), w2)) /\
  (forall why, st r = CannotStart why ->
   build_make_project host spawn self w = (Raise (OSError why), w2)) /\
  (forall code, st r = Exited code -> code <> 0%Z ->
   build_make_project host spawn self w =
   (copy_artifacts host self ;; os_chdir (project_root self)) w2 /\
   forall w',
     build_make_project host spawn self w = (Ret tt, w') ->
     (forall q d,
         q <> [] ->
         lookup (source_dir self ++ q) (fs w2) = Some (File true d) ->
         collected self (name q) (fs w')) /\
     exists copies,
       trace w' =
       EChdir (project_root self)
         :: copies
         ++ EMkdir (output_dir self)
         :: EPrint "! Make install failed - copying build artifacts manually"
         :: trace w2 /\
       Forall (copy_of_executable self (fs w2)) copies).
Proof.
  intros Hl H r w2.
  assert (build_make_project host spawn self w =
          (make_install_or_copy host spawn self ;;
           os_chdir (project_root self)) w1) as Hb.
  { unfold build_make_project. unfold bind at 1. now rewrite H. }
  assert (build_make_project host spawn self w =
          match st r with
          | Exited code =>
              if Z.eqb code 0 then os_chdir (project_root self) w2
              else (copy_artifacts host self ;; os_chdir (project_root self)) w2
          | NotFound => (Raise (FileNotFoundError "make"), w2)
          | CannotStart why => (Raise (OSError why), w2)
          end) as Hcases.
  { rewrite Hb. unfold bind at 1. rewrite make_install_or_copy_cases.
    fold r. fold w2. destruct (st r) as [code| |why]; try reflexivity.
    destruct (Z.eqb code 0); reflexivity. }
  rewrite Hcases. clear Hb Hcases. clearbody r.
  split; [|split; [|split]].
  - intros ->. reflexivity.
  - intros ->. reflexivity.
  - intros why ->. reflexivity.
  - intros code -> Hc.
    assert (Z.eqb code 0 = false) as -> by (apply Z.eqb_neq; exact Hc).
    split; [reflexivity|].
    intros w'. unfold bind at 1.
    destruct (copy_artifacts host self w2) as [[[]|e|s] w3] eqn:E;
      try discriminate.
    unfold os_chdir. destruct (is_dir (fs w3) (project_root self));
      [|discriminate].
    intros [= <-]. cbn [fs cwd clock trace].
    destruct (copy_artifacts_collects host self Hl _ _ E)
      as [Hall [_ [copies [Ht Hf]]]].
    split; [exact Hall|]. exists copies. rewrite Ht. auto.
Qed.

End MakeDriver.

(** ** The project name *)

(** C5: the name is derived with [replace], which removes [.git] wherever
    it occurs in the last segment of the URL, not only at its end: for a
    repository called [user.github.io] the derived name is [userhub.io],
    while removing a trailing [.git] would leave the segment as it is. *)
Theorem project_name_drops_inner_dot_git :
  derive_project_name "https://github.com/user/user.github.io" = "userhub.io" /\
  PyStr.removesuffix ".git" "user.github.io" = "user.github.io" /\
  project_name (init Demo.linux "https://github.com/user/user.github.io" None)
    = "userhub.io" /\
  derive_project_name "https://github.com/example/libfoo.git" = "libfoo" /\
  derive_project_name "https://github.com/example/libfoo" = "libfoo".
Proof. repeat split; reflexivity. Qed.

(** ** Runs on concrete machines *)

Module Scenarios.

Import FS Py Demo.
Local Open Scope list_scope.
Local Open Scope py_scope.

Lemma run_aborts_on_missing_tools_witness :
  exit_status (fst (run linux (without_cmake no_marker_tree) libfoo
                        (boot disk home))) = 1%Z.
Proof.
  assert (H : check_dependencies linux (without_cmake no_marker_tree) libfoo
                (started libfoo (boot disk home)) =
              (Ret (["cmake"], libfoo),
               snd (check_dependencies linux (without_cmake no_marker_tree)
                      libfoo (started libfoo (boot disk home)))))
    by (vm_compute; reflexivity).
  assert (N : ["cmake"] <> @nil string) by discriminate.
  exact (proj1 (proj2 (run_aborts_on_missing_tools
                         linux (without_cmake no_marker_tree)
                         libfoo libfoo ["cmake"] (boot disk home) _ H N))).
Defined.

Lemma detect_build_system_precedence_witness :
  detected linux libfoo (boot (checked_out cmake_and_make_tree) home) = Ret CMAKE.
Proof.
  assert (H1 : has_marker libfoo (boot (checked_out cmake_and_make_tree) home)
                 "CMakeLists.txt" = true) by reflexivity.
  assert (H2 : has_marker libfoo (boot (checked_out cmake_and_make_tree) home)
                 "Makefile" = true) by reflexivity.
  destruct (detect_build_system_precedence
              linux libfoo (boot (checked_out cmake_and_make_tree) home))
    as [_ [_ [H _]]].
  exact (H H1 H2).
Defined.

(** C6 fails where [glob] respects case: on Linux a directory whose only
    entry is [MAKEFILE], or [Makefile.am], has no CMake or Autotools
    marker and an entry that matches [makefile*] when case is ignored, and
    is classified Unknown. *)
Lemma uppercase_makefile_is_unknown :
  (let w := boot (checked_out upper_makefile_tree) home in
   has_marker libfoo w "CMakeLists.txt" = false /\
   has_marker libfoo w "configure.ac" = false /\
   has_marker libfoo w "configure" = false /\
   has_marker libfoo w "MAKEFILE" = true /\
   Fnmatch.fnmatch true "makefile*" "MAKEFILE" = true /\
   detected linux libfoo w = Ret UNKNOWN) /\
  (let w := boot (checked_out makefile_am_tree) home in
   has_marker libfoo w "CMakeLists.txt" = false /\
   has_marker libfoo w "configure.ac" = false /\
   has_marker libfoo w "configure" = false /\
   has_marker libfoo w "Makefile.am" = true /\
   Fnmatch.fnmatch true "makefile*" "Makefile.am" = true /\
   detected linux libfoo w = Ret UNKNOWN).
Proof. vm_compute. repeat split; reflexivity. Qed.

Lemma detect_make_by_pattern_witness :
  detected linux libfoo (boot (checked_out lower_makefile_tree) home) = Ret MAKE /\
  detected windows (init windows libfoo_url None)
           (boot (Dir [("C:", Dir [("builder", Dir [("source",
                   Dir [("libfoo", upper_makefile_tree)])])])])
                 ["C:"; "builder"]) = Ret MAKE.
Proof.
  split.
  - apply (detect_make_by_pattern linux libfoo _ "makefile.linux");
      try reflexivity.
    right. reflexivity.
  - apply (detect_make_by_pattern windows _ _ "MAKEFILE"); try reflexivity.
    right. reflexivity.
Defined.

Lemma detect_without_checkout_witness :
  fst (detect_build_system linux libfoo (boot disk home)) = Ret UNKNOWN.
Proof.
  assert (H : exists_ (fs (boot disk home)) (source_dir libfoo) = false)
    by reflexivity.
  exact (f_equal fst (detect_without_checkout linux libfoo (boot disk home) H)).
Defined.

Lemma unknown_build_system_is_fatal_witness :
  exit_status (fst (run linux (healthy no_marker_tree) libfoo (boot disk home)))
  = 1%Z.
Proof.
  pose (m := healthy no_marker_tree).
  pose (w1 := snd (check_dependencies linux m libfoo
                     (started libfoo (boot disk home)))).
  pose (w3 := snd ((clean_directories libfoo ;;
                    clone_repository linux m libfoo) w1)).
  assert (H1 : check_dependencies linux m libfoo
                 (started libfoo (boot disk home)) = (Ret ([], libfoo), w1))
    by (vm_compute; reflexivity).
  assert (H2 : (clean_directories libfoo ;; clone_repository linux m libfoo) w1
               = (Ret tt, w3))
    by (vm_compute; reflexivity).
  assert (H3 : detected linux libfoo w3 = Ret UNKNOWN)
    by (vm_compute; reflexivity).
  destruct (unknown_build_system_is_fatal linux m libfoo libfoo
              (boot disk home) w1 w3 H1 H2 H3) as [w' [_ [H _]]].
  exact H.
Defined.

Lemma run_reports_every_failure_witness :
  exists r w2,
    run_stages linux (healthy cmake_and_make_tree) libfoo
      (snd (check_dependencies linux (healthy cmake_and_make_tree) libfoo
              (started libfoo (boot disk home)))) = (r, w2) /\
    ((exists e, r = Raise e) \/ r = Ret tt).
Proof.
  pose (m := healthy cmake_and_make_tree).
  assert (H1 : check_dependencies linux m libfoo
                 (started libfoo (boot disk home)) =
               (Ret ([], libfoo),
                snd (check_dependencies linux m libfoo
                       (started libfoo (boot disk home)))))
    by (vm_compute; reflexivity).
  exact (proj2 (proj2 (run_reports_every_failure
                          linux m libfoo libfoo (boot disk home) _ H1))).
Defined.

Lemma clone_repository_steps_witness :
  exists cleared,
    lookup (source_dir libfoo) cleared = None /\
    remove (source_dir libfoo) (checked_out no_marker_tree) = Some cleared.
Proof.
  assert (H1 : source_dir libfoo <> []) by discriminate.
  assert (H2 : is_file (fs (boot (checked_out no_marker_tree) home))
                       (source_dir libfoo) = false) by reflexivity.
  destruct (clone_repository_steps linux (healthy cmake_and_make_tree) libfoo
              (boot (checked_out no_marker_tree) home) H1 H2)
    as [_ [_ [cleared [Hc [Hl _]]]]].
  exists cleared. split; [exact Hl|exact Hc].
Defined.

(** C4 fails on an error path: when [make -j] exits with status 2 the
    driver raises and the working directory stays in the source
    directory, not in the directory that was current before; this holds
    for the Autotools driver and for the Make driver. *)
Lemma drivers_leave_source_dir_on_error :
  (let w := boot (checked_out configure_only_tree) home in
   let rw := build_autotools_project linux (make_fails configure_only_tree)
               libfoo w in
   fst rw = Raise (CalledProcessError 2 ["make"; "-j"]) /\
   cwd w = home /\ cwd (snd rw) = libfoo_src /\ cwd (snd rw) <> cwd w) /\
  (let w := boot (checked_out built_make_tree) home in
   let rw := build_make_project linux (make_fails built_make_tree) libfoo w in
   fst rw = Raise (CalledProcessError 2 ["make"; "-j"]) /\
   cwd w = home /\ cwd (snd rw) = libfoo_src /\ cwd (snd rw) <> cwd w).
Proof. vm_compute. repeat split; try reflexivity; discriminate. Qed.

Lemma driver_working_directory_witness :
  cwd (snd (build_make_project linux (healthy built_make_tree) libfoo
              (boot (checked_out built_make_tree) ["home"; "user"])))
  = project_root libfoo.
Proof.
  pose (m := healthy built_make_tree).
  pose (w := boot (checked_out built_make_tree) ["home"; "user"]).
  assert (Hin : In (build_make_project linux m)
                   [build_autotools_project linux m; build_make_project linux m])
    by (right; left; reflexivity).
  assert (H : build_make_project linux m libfoo w =
              (Ret tt, snd (build_make_project linux m libfoo w)))
    by (vm_compute; reflexivity).
  exact (proj1 (driver_working_directory linux m (build_make_project linux m)
                  libfoo w (Ret tt) _ Hin H) eq_refl).
Defined.

(** C3: the code misses the libraries its fallback is written to copy.
    The tree holds the executable [prog] and the regular file [libfoo.so],
    which is not executable; [make install] exits with status 2.  The
    driver completes and [prog] is in the output directory, but
    [libfoo.so] is not: the test [os.access(file, os.X_OK)] guards every
    pattern, the pattern for [.so] included. *)
Lemma shared_object_not_copied :
  let w := boot (checked_out built_make_tree) home in
  let rw := build_make_project linux (install_fails built_make_tree) libfoo w in
  is_file (fs w) (source_dir libfoo ++ ["prog"]) = true /\
  access_x (fs w) (source_dir libfoo ++ ["prog"]) = true /\
  is_file (fs w) (source_dir libfoo ++ ["libfoo.so"]) = true /\
  PyStr.endswith ".so" "libfoo.so" = true /\
  fst rw = Ret tt /\
  exists_ (fs (snd rw)) (output_dir libfoo ++ ["prog"]) = true /\
  exists_ (fs (snd rw)) (output_dir libfoo ++ ["libfoo.so"]) = false.
Proof. vm_compute. repeat split; reflexivity. Qed.

Lemma make_install_fallback_witness :
  collected libfoo "gen"
    (fs (snd (build_make_project linux (install_fails built_make_tree) libfoo
                (boot (checked_out built_make_tree) home)))).
Proof.
  pose (m := install_fails built_make_tree).
  pose (w := boot (checked_out built_make_tree) home).
  pose (w1 := snd (make_configure_and_build linux m libfoo w)).
  assert (Hl : laid_out libfoo) by (split; reflexivity).
  assert (H1 : make_configure_and_build linux m libfoo w = (Ret tt, w1))
    by (vm_compute; reflexivity).
  assert (H2 : st (m ["make"; "install"] (cwd w1) (fs w1) (clock w1)) = Exited 2)
    by (vm_compute; reflexivity).
  assert (H3 : (2 <> 0)%Z) by discriminate.
  assert (H4 : build_make_project linux m libfoo w =
               (Ret tt, snd (build_make_project linux m libfoo w)))
    by (vm_compute; reflexivity).
  assert (H5 : ["tools"; "gen"] <> @nil string) by discriminate.
  assert (H6 : lookup (source_dir libfoo ++ ["tools"; "gen"])
                      (fs (after_install m w1)) = Some (File true "ELF gen"))
    by (vm_compute; reflexivity).
  destruct (make_install_fallback linux m libfoo w w1 Hl H1)
    as [_ [_ [_ H]]].
  destruct (H 2%Z H2 H3) as [_ Hw].
  destruct (Hw _ H4) as [Hall _].
  exact (Hall ["tools"; "gen"] "ELF gen" H5 H6).
Defined.

End Scenarios.

(** * Further properties of the script *)

(** ** The project name of ordinary URLs *)

Section PlainNames.

Local Open Scope string_scope.

Lemma append_empty (s : string) : s ++ "" = s.
Proof. induction s as [|c s IH]; simpl; congruence. Qed.

Lemma split_ends_with (base t : string) :
  has_char "/" t = false ->
  exists pre,
    pre <> [] /\ PyStr.split "/" (base ++ "/" ++ t) = (pre ++ [t])%list.
Proof.
  intros Ht.
  assert (PyStr.split "/" t = [t]) as Hs.
  { clear base. induction t as [|c t IH]; simpl in *; auto.
    apply orb_false_iff in Ht. destruct Ht as [Hc Ht].
    rewrite Hc, (IH Ht). reflexivity. }
  change ("/" ++ t) with (String "/" t).
  induction base as [|c base [pre [Hne IH]]].
  - exists [""]. simpl. rewrite Hs. split; [discriminate|reflexivity].
  - cbn [String.append PyStr.split]. destruct (Ascii.eqb c "/").
    + exists ("" :: pre). rewrite IH. split; [discriminate|reflexivity].
    + rewrite IH. destruct pre as [|h pre]; [congruence|].
      exists (String c h :: pre). split; [discriminate|reflexivity].
Qed.

Lemma replace_without_dot (name tail : string) :
  has_char "." name = false ->
  PyStr.replace_from 0 ".git" "" (name ++ tail) =
  name ++ PyStr.replace_from 0 ".git" "" tail.
Proof.
  induction name as [|c name IH]; [reflexivity|].
  cbn [has_char]. intros H. apply orb_false_iff in H. destruct H as [Hc Hn].
  cbn [String.append PyStr.replace_from PyStr.startswith].
  rewrite Ascii.eqb_sym, Hc. cbn [andb]. now rewrite (IH Hn).
Qed.

(** X1: for a URL that ends in [/name.git] or in [/name], where [name]
    holds neither a slash nor a dot, the derived project name is [name]. *)
Theorem project_name_of_plain_url (base name : string) :
  has_char "/" name = false ->
  has_char "." name = false ->
  derive_project_name (base ++ "/" ++ name ++ ".git") = name /\
  derive_project_name (base ++ "/" ++ name) = name.
Proof.
  intros Hs Hd. unfold derive_project_name, PyStr.last_item, PyStr.replace.
  assert (has_char "/" (name ++ ".git") = false) as Hs'.
  { clear Hd. induction name as [|c name IH]; simpl in *; auto.
    apply orb_false_iff in Hs. destruct Hs as [Hc Hs].
    now rewrite Hc, (IH Hs). }
  split.
  - destruct (split_ends_with base (name ++ ".git") Hs') as [pre [_ ->]].
    rewrite last_last, replace_without_dot by exact Hd.
    simpl. now rewrite append_empty.
  - destruct (split_ends_with base name Hs) as [pre [_ ->]].
    rewrite last_last.
    rewrite <- (append_empty name) at 1.
    rewrite replace_without_dot by exact Hd.
    simpl. now rewrite append_empty.
Qed.

End PlainNames.

(** ** The command line and the exit status *)

Section CommandLine.

Import FS Py Effects.
Local Open Scope list_scope.
Local Open Scope py_scope.

Variable host : Host.
Variable spawn : Spawn.

(** X2: called without a repository URL, the script prints its usage and
    an example and exits with status 1; it starts no process and leaves
    the disk and the working directory alone. *)
Theorem main_without_url (argv : list string) (w : World) :
  (List.length argv < 2)%nat ->
  main host spawn argv w =
  (Exit 1,
   mkWorld (fs w) (cwd w) (clock w)
     (EPrint "Example: python builder.py https://github.com/username/project.git main"
        :: EPrint "Usage: python builder.py <github_url> [branch]"
        :: trace w)).
Proof.
  intros H. destruct argv as [|script [|url rest]]; simpl in H;
    try reflexivity.
  lia.
Qed.

Lemma run_outcome (self : CProjectBuilder) (w : World) :
  let r := fst (run host spawn self w) in
  (exit_status r = 0%Z \/ exit_status r = 1%Z) /\
  (exit_status r = 0%Z -> r = Ret tt) /\
  (forall s, r = Exit s -> s = 1%Z).
Proof.
  rewrite run_unfold.
  destruct (check_dependencies host spawn self (started self w))
    as [[[missing self1]|e|s] w1] eqn:E.
  - destruct missing as [|tool missing].
    + unfold try_except.
      destruct (run_stages host spawn self1 w1) as [[[]|e|s] w2] eqn:R.
      * simpl. repeat split; auto. intros s; discriminate.
      * rewrite report_failure_prints. simpl.
        repeat split; auto; try discriminate. now intros s [= <-].
      * destruct (emits_run_stages host spawn self1 _ _ _ R) as [Hr _].
        now destruct (Hr s).
    + simpl. repeat split; auto; try discriminate. now intros s [= <-].
  - simpl. repeat split; auto; discriminate.
  - destruct (emits_check_dependencies host spawn self _ _ _ E) as [Hr _].
    now destruct (Hr s).
Qed.

(** X3: whatever the command line and the machine, the script ends with
    exit status 0 or 1; status 0 means that it ran to its end, and
    [sys.exit] is only ever called with 1. *)
Theorem main_exit_status (argv : list string) (w : World) :
  let r := fst (main host spawn argv w) in
  (exit_status r = 0%Z \/ exit_status r = 1%Z) /\
  (exit_status r = 0%Z -> r = Ret tt) /\
  (forall s, r = Exit s -> s = 1%Z).
Proof.
  destruct argv as [|script [|url rest]].
  - simpl. repeat split; auto; try discriminate. now intros s [= <-].
  - simpl. repeat split; auto; try discriminate. now intros s [= <-].
  - cbn [main]. apply run_outcome.
Qed.

End CommandLine.

(** ** Checking the dependencies *)

Section Dependencies.

Import FS Py Effects.
Local Open Scope list_scope.
Local Open Scope py_scope.

Variable host : Host.
Variable spawn : Spawn.

Lemma probe_tool_cases (tool found windows_help other_help : string)
      (missing : list string) (w : World) (r : outcome (list string))
      (w' : World) :
  probe_tool host spawn tool found windows_help other_help missing w = (r, w') ->
  let s := st (spawn [tool; "--version"] (cwd w) (fs w) (clock w)) in
  cwd w' = cwd w /\ clock w' = S (clock w) /\
  ((r = Ret (missing ++ (if succeeded s then [] else [tool])) /\
    forall why, s <> CannotStart why) \/
   (exists why, s = CannotStart why /\ r = Raise (OSError why))).
Proof.
  unfold probe_tool, try_except, bind, print, subprocess_run, ret, log.
  cbn [fs cwd clock trace].
  destruct (st (spawn [tool; "--version"] (cwd w) (fs w) (clock w)))
    as [code| |why]; simpl.
  - destruct (Z.eqb code 0); simpl; intros [= <- <-]; simpl;
      rewrite ?app_nil_r; repeat split; auto; left; split; auto; discriminate.
  - intros [= <- <-]. simpl. repeat split; auto. left. split; auto.
    discriminate.
  - intros [= <- <-]. simpl. repeat split; auto. right. eauto.
Qed.

Lemma first_existing_result (paths : list string) (w : World) :
  exists found,
    first_existing host paths w = (Ret found, w) /\
    forall p, found = Some p ->
              In p paths /\ exists_ (fs w) (parse_path host p) = true.
Proof.
  induction paths as [|p paths [found [E H]]]; simpl.
  - exists None. split; [reflexivity|discriminate].
  - unfold bind, os_path_exists, path_exists, reads.
    destruct (exists_ (fs w) (parse_path host p)) eqn:X.
    + exists (Some p). split; [reflexivity|]. intros q [= <-]. auto.
    + exists found. split; [exact E|]. intros q Hq.
      destruct (H q Hq). auto.
Qed.

Lemma get_vs_install_path_returns (w : World) :
  exists found w',
    get_vs_install_path host spawn w = (Ret found, w') /\
    cwd w' = cwd w /\
    (clock w' = clock w \/ clock w' = S (clock w)).
Proof.
  unfold get_vs_install_path, bind at 1, os_path_exists, path_exists, reads.
  match goal with
  | |- context [exists_ (fs w) ?p] => destruct (exists_ (fs w) p)
  end; cbn [negb].
  - unfold try_except, bind, subprocess_run, ret. cbn [fs cwd clock trace].
    match goal with
    | |- context [st ?x] => destruct (st x) as [code| |why]
    end; simpl; do 2 eexists; (split; [reflexivity|]); simpl; auto.
  - unfold ret. do 2 eexists. split; [reflexivity|]. auto.
Qed.

Lemma find_msbuild_result (w : World) :
  exists found w',
    find_msbuild host spawn w = (Ret found, w') /\
    forall p, found = Some p -> exists_ (fs w') (parse_path host p) = true.
Proof.
  unfold find_msbuild. unfold bind at 1.
  destruct (get_vs_install_path_returns w) as [vs [w1 [E _]]]. rewrite E.
  unfold bind at 1.
  destruct (truthy_opt vs).
  - unfold bind at 1, os_path_exists, path_exists, reads, ret.
    match goal with
    | |- context [exists_ (fs w1) ?p] => destruct (exists_ (fs w1) p) eqn:X
    end.
    + do 2 eexists. split; [reflexivity|]. now intros p [= <-].
    + destruct (first_existing_result common_paths w1) as [found [F H]].
      exists found, w1. split; [exact F|]. intros p Hp. now destruct (H p Hp).
  - unfold ret.
    destruct (first_existing_result common_paths w1) as [found [F H]].
    exists found, w1. split; [exact F|]. intros p Hp. now destruct (H p Hp).
Qed.

(** The three version queries of [check_dependencies] and what follows
    them. *)
Lemma check_dependencies_cases (self : CProjectBuilder) (w : World)
      (r : outcome (list string * CProjectBuilder)) (w' : World) :
  check_dependencies host spawn self w = (r, w') ->
  (exists why, r = Raise (OSError why)) \/
  exists w1 w2 w3 found,
    let s1 := st (spawn ["git"; "--version"] (cwd w1) (fs w1) (clock w1)) in
    let s2 := st (spawn ["make"; "--version"] (cwd w2) (fs w2) (clock w2)) in
    let s3 := st (spawn ["cmake"; "--version"] (cwd w3) (fs w3) (clock w3)) in
    clock w1 = clock w /\ clock w2 = S (clock w) /\ clock w3 = S (S (clock w)) /\
    r = Ret (reported (negb (succeeded s1)) (negb (succeeded s2))
                      (negb (succeeded s3))
                      (is_windows host && negb (truthy_opt found)),
             if is_windows host then set_msbuild_path self found else self) /\
    (is_windows host = false -> clock w' = S (S (S (clock w)))).
Proof.
  unfold check_dependencies. unfold bind at 1, print at 1, log.
  set (w1 := mkWorld _ _ _ _).
  unfold bind at 1.
  destruct (probe_tool _ _ "git" _ _ _ _ w1) as [r1 w2] eqn:P1.
  destruct (probe_tool_cases _ _ _ _ _ _ _ _ P1) as [C1 [K1 [[-> N1]|[why [S1 ->]]]]];
    [|intros [= <- <-]; left; eauto].
  unfold bind at 1.
  destruct (probe_tool _ _ "make" _ _ _ _ w2) as [r2 w3] eqn:P2.
  destruct (probe_tool_cases _ _ _ _ _ _ _ _ P2) as [C2 [K2 [[-> N2]|[why [S2 ->]]]]];
    [|intros [= <- <-]; left; eauto].
  unfold bind at 1.
  destruct (probe_tool _ _ "cmake" _ _ _ _ w3) as [r3 w4] eqn:P3.
  destruct (probe_tool_cases _ _ _ _ _ _ _ _ P3) as [C3 [K3 [[-> N3]|[why [S3 ->]]]]];
    [|intros [= <- <-]; left; eauto].
  assert (forall b found,
             ((([] ++ (if succeeded (st (spawn ["git"; "--version"] (cwd w1) (fs w1) (clock w1))) then [] else ["git"]))
                 ++ (if succeeded (st (spawn ["make"; "--version"] (cwd w2) (fs w2) (clock w2))) then [] else ["make"]))
                ++ (if succeeded (st (spawn ["cmake"; "--version"] (cwd w3) (fs w3) (clock w3))) then [] else ["cmake"]))
               ++ (if b && negb (truthy_opt found) then ["msbuild"] else [])
             = reported
                 (negb (succeeded (st (spawn ["git"; "--version"] (cwd w1) (fs w1) (clock w1)))))
                 (negb (succeeded (st (spawn ["make"; "--version"] (cwd w2) (fs w2) (clock w2)))))
                 (negb (succeeded (st (spawn ["cmake"; "--version"] (cwd w3) (fs w3) (clock w3)))))
                 (b && negb (truthy_opt found))) as Hrep.
  { intros b found. unfold reported.
    destruct (succeeded _), (succeeded _), (succeeded _),
      (b && negb (truthy_opt found)); reflexivity. }
  destruct (is_windows host) eqn:W.
  - unfold bind at 1.
    destruct (find_msbuild_result w4) as [found [w5 [F _]]].
    rewrite F. intros H. right. exists w1, w2, w3, found.
    cbn zeta. split; [reflexivity|]. split; [exact K1|].
    split; [now rewrite K2, K1|]. split; [|discriminate].
    rewrite <- (Hrep true found). cbn [andb].
    destruct (negb (truthy_opt found));
      unfold bind, print, ret in H; injection H as <- _;
      rewrite ?app_nil_r; reflexivity.
  - unfold ret. intros [= <- <-]. right. exists w1, w2, w3, None.
    cbn zeta. split; [reflexivity|]. split; [exact K1|].
    split; [now rewrite K2, K1|]. split.
    + rewrite <- (Hrep false None). cbn [andb]. now rewrite app_nil_r.
    + intros _. now rewrite K3, K2, K1.
Qed.

(** X4: [find_msbuild] never raises, and a path it returns exists on the
    disk it leaves. *)
Theorem find_msbuild_returns_existing_path (w : World) :
  exists found w',
    find_msbuild host spawn w = (Ret found, w') /\
    forall p, found = Some p -> exists_ (fs w') (parse_path host p) = true.
Proof. exact (find_msbuild_result w). Qed.

Lemma in_reported (git make cmake msbuild : bool) :
  (In "git" (reported git make cmake msbuild) <-> git = true) /\
  (In "make" (reported git make cmake msbuild) <-> make = true) /\
  (In "cmake" (reported git make cmake msbuild) <-> cmake = true) /\
  (In "msbuild" (reported git make cmake msbuild) <-> msbuild = true).
Proof.
  destruct git, make, cmake, msbuild; unfold reported; simpl;
    repeat split; intros H; auto; try discriminate;
    repeat (destruct H as [H|H]; try discriminate); try contradiction.
Qed.

(** X5: the list [check_dependencies] returns holds, in this order and
    each at most once, those of git, make, cmake and msbuild it found
    missing.  msbuild is only ever reported on Windows, where it is
    reported exactly when no path to it was stored in the builder; on other
    systems the builder is returned as it was, after three version
    queries, whatever their results. *)
Theorem check_dependencies_reports
        (self self' : CProjectBuilder) (missing : list string) (w w' : World) :
  check_dependencies host spawn self w = (Ret (missing, self'), w') ->
  exists git make cmake msbuild,
    missing = reported git make cmake msbuild /\
    (msbuild = true -> is_windows host = true) /\
    (is_windows host = true ->
     (In "msbuild" missing <-> truthy_opt (msbuild_path self') = false)) /\
    (is_windows host = false ->
     self' = self /\ clock w' = S (S (S (clock w)))).
Proof.
  intros H.
  destruct (check_dependencies_cases _ _ _ _ H)
    as [[why E]|[w1 [w2 [w3 [found [_ [_ [_ [E K]]]]]]]]]; [discriminate|].
  cbn zeta in E. injection E as -> ->.
  do 4 eexists. split; [reflexivity|]. split; [|split].
  - intros B. now apply andb_true_iff in B.
  - intros W. rewrite W. cbn [andb].
    destruct (in_reported
                (negb (succeeded (st (spawn ["git"; "--version"]
                                            (cwd w1) (fs w1) (clock w1)))))
                (negb (succeeded (st (spawn ["make"; "--version"]
                                            (cwd w2) (fs w2) (clock w2)))))
                (negb (succeeded (st (spawn ["cmake"; "--version"]
                                            (cwd w3) (fs w3) (clock w3)))))
                (negb (truthy_opt found))) as [_ [_ [_ Hm]]].
    rewrite Hm. simpl. destruct (truthy_opt found); simpl; split; congruence.
  - intros W. rewrite W. split; [reflexivity|auto].
Qed.

(** X6: a missing tool never makes [check_dependencies] raise: the only
    exception that leaves it is the [OSError] of a version query that
    could not be started. *)
Theorem check_dependencies_raises_only_oserror
        (self : CProjectBuilder) (e : exn) (w w' : World) :
  check_dependencies host spawn self w = (Raise e, w') ->
  exists why, e = OSError why.
Proof.
  intros H.
  destruct (check_dependencies_cases _ _ _ _ H)
    as [[why E]|[w1 [w2 [w3 [found [_ [_ [_ [E _]]]]]]]]].
  - injection E as ->. eauto.
  - cbn zeta in E. discriminate.
Qed.

(** X7: for each of git, make and cmake: when its version query always
    succeeds it is not in the list [check_dependencies] returns, and when
    the tool is not installed it is in the list, whatever happens to the
    other tools. *)
Theorem check_dependencies_reports_each_tool
        (self self' : CProjectBuilder) (missing : list string) (w w' : World)
        (tool : string) :
  check_dependencies host spawn self w = (Ret (missing, self'), w') ->
  In tool ["git"; "make"; "cmake"] ->
  (installed spawn tool -> ~ In tool missing) /\
  (not_installed spawn tool -> In tool missing).
Proof.
  intros H Ht.
  destruct (check_dependencies_cases _ _ _ _ H)
    as [[why E]|[w1 [w2 [w3 [found [_ [_ [_ [E _]]]]]]]]]; [discriminate|].
  cbn zeta in E. injection E as -> _.
  match goal with
  | |- context [reported ?g ?m ?c ?b] =>
      destruct (in_reported g m c b) as [Hg [Hm [Hc _]]]
  end.
  destruct Ht as [<-|[<-|[<-|[]]]].
  - rewrite Hg. split; intros I; rewrite I; simpl; congruence.
  - rewrite Hm. split; intros I; rewrite I; simpl; congruence.
  - rewrite Hc. split; intros I; rewrite I; simpl; congruence.
Qed.

End Dependencies.

(** ** What the script leaves alone on the disk *)

Module Untouched.

Import FS Py FSFacts.
Local Open Scope list_scope.
Local Open Scope py_scope.

Lemma find_remove_other (a b : string) (es : list (string * node)) :
  a <> b -> find_entry b (remove_entry a es) = find_entry b es.
Proof.
  intros Hab. induction es as [|[k n] es IH]; simpl; auto.
  destruct (String.eqb k a) eqn:Ea; simpl.
  - apply String.eqb_eq in Ea. subst k.
    destruct (String.eqb a b) eqn:E; auto.
    apply String.eqb_eq in E. contradiction.
  - now rewrite IH.
Qed.

Lemma remove_diverge (r : path) (a b : string) (p q : path) (n n' : node) :
  a <> b ->
  remove (r ++ a :: p) n = Some n' ->
  lookup (r ++ b :: q) n' = lookup (r ++ b :: q) n.
Proof.
  intros Hab. revert n n'. induction r as [|c r IH]; intros n n'.
  - cbn [app remove]. destruct n as [x d|es]; [discriminate|].
    destruct p as [|c' p].
    + destruct (find_entry a es); [|discriminate].
      intros [= <-]. simpl. now rewrite find_remove_other.
    + destruct (find_entry a es) as [child|]; [|discriminate].
      destruct (remove (c' :: p) child); [|discriminate].
      intros [= <-]. simpl. now rewrite find_set_other.
  - cbn [app remove]. destruct n as [x d|es]; [discriminate|].
    destruct (r ++ a :: p) as [|c' rest] eqn:E; [destruct r; discriminate|].
    destruct (find_entry c es) as [child|] eqn:F; [|discriminate].
    destruct (remove (c' :: rest) child) as [child'|] eqn:R; [|discriminate].
    intros [= <-]. cbn [lookup]. rewrite find_set_same, F. eauto.
Qed.

Lemma mkdirs_fresh_empty (p : path) (n' : node) :
  mkdirs p (Dir []) = Some n' -> lookup p n' = Some (Dir []).
Proof.
  revert n'. induction p as [|c p IH]; intros n'; simpl.
  - now intros [= <-].
  - destruct (mkdirs p (Dir [])) as [child'|] eqn:E; [|discriminate].
    intros [= <-]. simpl. rewrite String.eqb_refl. eauto.
Qed.

(** Making a directory that is not there gives an empty directory. *)
Lemma mkdirs_creates_empty (p : path) (n n' : node) :
  lookup p n = None -> mkdirs p n = Some n' -> lookup p n' = Some (Dir []).
Proof.
  revert n n'. induction p as [|c p IH]; intros n n'; simpl; [discriminate|].
  destruct n as [x d|es]; [discriminate|].
  destruct (find_entry c es) as [child|] eqn:F.
  - intros L. destruct (mkdirs p child) as [child'|] eqn:E; [|discriminate].
    intros [= <-]. simpl. rewrite find_set_same. eauto.
  - intros _. destruct (mkdirs p (Dir [])) as [child'|] eqn:E; [|discriminate].
    intros [= <-]. simpl. rewrite find_set_same.
    now apply mkdirs_fresh_empty.
Qed.

Lemma untouched_same {A} (keep : path) (m : M A) :
  (forall w r w', m w = (r, w') -> fs w' = fs w) -> untouched keep m.
Proof. intros H w r w' E q. now rewrite (H _ _ _ E). Qed.

Lemma untouched_ret {A} (keep : path) (a : A) : untouched keep (ret a).
Proof. apply untouched_same. now intros w r w' [= _ <-]. Qed.

Lemma untouched_reads {A} (keep : path) (f : World -> A) :
  untouched keep (reads f).
Proof. apply untouched_same. now intros w r w' [= _ <-]. Qed.

Lemma untouched_print (keep : path) (text : string) :
  untouched keep (print text).
Proof. apply untouched_same. now intros w r w' [= _ <-]. Qed.

Lemma untouched_bind {A B} (keep : path) (m : M A) (k : A -> M B) :
  untouched keep m -> (forall a, untouched keep (k a)) ->
  untouched keep (bind m k).
Proof.
  intros Hm Hk w r w'. unfold bind.
  destruct (m w) as [[a|e|s] w1] eqn:E; intros H q.
  - rewrite (Hk a _ _ _ H q). exact (Hm _ _ _ E q).
  - injection H as _ <-. exact (Hm _ _ _ E q).
  - injection H as _ <-. exact (Hm _ _ _ E q).
Qed.

Lemma untouched_when (keep : path) (b : bool) (m : M unit) :
  untouched keep m -> untouched keep (when b m).
Proof. destruct b; simpl; auto using untouched_ret. Qed.

Lemma untouched_for_each {X} (keep : path) (xs : list X) (body : X -> M unit) :
  (forall x, untouched keep (body x)) -> untouched keep (for_each xs body).
Proof.
  intros Hb. induction xs as [|x xs IH]; simpl.
  - apply untouched_ret.
  - apply untouched_bind; auto.
Qed.

Lemma untouched_rmtree (keep p : path) :
  diverge p keep -> untouched keep (shutil_rmtree p).
Proof.
  intros [r [a [b [p' [k' [Hab [-> ->]]]]]]] w res w'. unfold shutil_rmtree.
  destruct (is_dir (fs w) (r ++ a :: p')); [|now intros [= _ <-]].
  destruct (remove (r ++ a :: p') (fs w)) as [fs'|] eqn:R;
    [|now intros [= _ <-]].
  intros [= _ <-] q. cbn [fs]. rewrite <- app_assoc. cbn [app].
  eapply remove_diverge; eauto.
Qed.

Lemma untouched_mkdir (keep p : path) :
  diverge p keep -> untouched keep (path_mkdir p).
Proof.
  intros [r [a [b [p' [k' [Hab [-> ->]]]]]]] w res w'. unfold path_mkdir.
  destruct (mkdirs (r ++ a :: p') (fs w)) as [fs'|] eqn:R;
    [|now intros [= _ <-]].
  intros [= _ <-] q. cbn [fs]. rewrite <- app_assoc. cbn [app].
  eapply mkdirs_diverge; eauto.
Qed.

Lemma untouched_copy2 (keep src dst : path) :
  diverge dst keep -> untouched keep (shutil_copy2 src dst).
Proof.
  intros [r [a [b [p' [k' [Hab [-> ->]]]]]]] w res w'. unfold shutil_copy2.
  destruct (lookup src (fs w)) as [[x d|es]|]; try now intros [= _ <-].
  set (target := if is_dir (fs w) (r ++ a :: p')
                 then (r ++ a :: p') ++ [name src] else r ++ a :: p').
  assert (exists t, target = r ++ a :: t) as [t Ht].
  { subst target. destruct (is_dir (fs w) (r ++ a :: p')); eauto.
    rewrite <- app_assoc. cbn [app]. eauto. }
  rewrite Ht.
  destruct (path_eqb src (r ++ a :: t)); [now intros [= _ <-]|].
  destruct (is_dir (fs w) (r ++ a :: t)); [now intros [= _ <-]|].
  destruct (put (r ++ a :: t) (File x d) (fs w)) as [fs'|] eqn:P;
    [|now intros [= _ <-]].
  intros [= _ <-] q. cbn [fs]. rewrite <- app_assoc. cbn [app].
  eapply put_diverge; eauto.
Qed.

End Untouched.

(** ** Cleaning, and the fallback, on the disk *)

Section Cleaning.

Import FS Py FSFacts Effects Untouched.
Local Open Scope list_scope.
Local Open Scope py_scope.

Variable host : Host.
Variable self : CProjectBuilder.
Hypothesis layout : laid_out self.

Lemma output_diverges_from_source : diverge (output_dir self) (source_dir self).
Proof.
  destruct layout as [Hs Ho].
  exists (project_root self), "output", "source",
    [project_name self], [project_name self].
  split; [discriminate|]. split; assumption.
Qed.

(** The body of the loop of [clean_directories], for one directory. *)
Lemma clean_one_leaves_empty (d : path) (w w' : World) :
  (present <- path_exists d ;;
   when present (shutil_rmtree d) ;;
   path_mkdir d) w = (Ret tt, w') ->
  lookup d (fs w') = Some (Dir []) /\ cwd w' = cwd w /\ clock w' = clock w.
Proof.
  unfold bind at 1, path_exists, reads.
  assert (forall v v', lookup d (fs v) = None ->
                       path_mkdir d v = (Ret tt, v') ->
                       lookup d (fs v') = Some (Dir []) /\
                       cwd v' = cwd v /\ clock v' = clock v) as Hmk.
  { intros v v' L. unfold path_mkdir.
    destruct (mkdirs d (fs v)) as [made|] eqn:M; [|discriminate].
    intros [= <-]. simpl. split; auto. eapply mkdirs_creates_empty; eauto. }
  destruct (exists_ (fs w) d) eqn:X; unfold when, bind.
  - unfold shutil_rmtree. destruct (is_dir (fs w) d); [|discriminate].
    destruct (remove d (fs w)) as [gone|] eqn:R; [|discriminate].
    intros H. apply Hmk in H; [exact H|]. simpl. eapply remove_gone; eauto.
  - unfold ret. apply Hmk. unfold exists_ in X.
    destruct (lookup d (fs w)); [discriminate|reflexivity].
Qed.

(** X8: for a builder laid out as [__init__] lays it out, whose paths are
    read as written (no empty, [.] or [..] component, no separator or
    colon in the project name), the fallback of the Make driver never
    changes the source tree, whether it completes or stops at a copy that
    fails. *)
Theorem copy_artifacts_keeps_source :
  plain_paths self ->
  untouched (source_dir self) (copy_artifacts host self).
Proof.
  intros _.
  pose proof output_diverges_from_source as D.
  unfold copy_artifacts, copy_matching, copy_if_executable, path_is_file,
    os_access_x.
  apply untouched_bind; [apply untouched_print|]. intros _.
  apply untouched_bind; [now apply untouched_mkdir|]. intros _.
  apply untouched_for_each. intros ext.
  apply untouched_bind; [apply untouched_reads|]. intros files.
  apply untouched_for_each. intros file.
  apply untouched_bind; [apply untouched_reads|]. intros regular.
  apply untouched_bind; [apply untouched_reads|]. intros executable.
  apply untouched_when. now apply untouched_copy2.
Qed.

Hypothesis layout_build : laid_out_build self.

Lemma build_diverges_from_source : diverge (build_dir self) (source_dir self).
Proof.
  destruct layout as [Hs Ho].
  exists (project_root self), "build", "source",
    [project_name self], [project_name self].
  split; [discriminate|]. split; assumption.
Qed.

Lemma output_diverges_from_build : diverge (output_dir self) (build_dir self).
Proof.
  destruct layout as [Hs Ho].
  exists (project_root self), "output", "build",
    [project_name self], [project_name self].
  split; [discriminate|]. split; assumption.
Qed.

Lemma untouched_clean_one (keep d : path) :
  diverge d keep ->
  untouched keep (present <- path_exists d ;;
                  when present (shutil_rmtree d) ;;
                  path_mkdir d).
Proof.
  intros D. unfold path_exists.
  apply untouched_bind; [apply untouched_reads|]. intros present.
  apply untouched_bind; [|intros _; now apply untouched_mkdir].
  apply untouched_when. now apply untouched_rmtree.
Qed.

(** X9: for a builder laid out as [__init__] lays it out, whose paths are
    read as written (no empty, [.] or [..] component, no separator or
    colon in the project name), [clean_directories] never changes the
    source checkout, whether it completes or raises. *)
Theorem clean_directories_keeps_checkout :
  plain_paths self ->
  untouched (source_dir self) (clean_directories self).
Proof.
  intros _.
  unfold clean_directories. cbn [for_each].
  apply untouched_bind; [apply untouched_print|]. intros _.
  apply untouched_bind; [|intros _; apply untouched_print].
  apply untouched_bind.
  { apply untouched_clean_one. apply build_diverges_from_source. }
  intros _. apply untouched_bind; [|intros _; apply untouched_ret].
  apply untouched_clean_one. apply output_diverges_from_source.
Qed.

(** X10: for a builder laid out as [__init__] lays it out, whose paths
    are read as written (no empty, [.] or [..] component, no separator or
    colon in the project name): when [clean_directories] completes, the
    build directory and the output directory both exist and are empty,
    whatever they held before; no process was started and the working
    directory is the same. *)
Theorem clean_directories_leaves_empty (w w' : World) :
  plain_paths self ->
  clean_directories self w = (Ret tt, w') ->
  lookup (build_dir self) (fs w') = Some (Dir []) /\
  lookup (output_dir self) (fs w') = Some (Dir []) /\
  cwd w' = cwd w /\ clock w' = clock w.
Proof.
  intros _.
  unfold clean_directories. cbn [for_each].
  unfold bind at 1, print at 1, log. unfold bind at 1. unfold bind at 1.
  set (w0 := mkWorld _ _ _ _).
  match goal with
  | |- context [bind (path_exists (build_dir self)) ?k w0] =>
      destruct (bind (path_exists (build_dir self)) k w0)
        as [[[]|e|s] w1] eqn:E1; try discriminate
  end.
  unfold bind at 1.
  match goal with
  | |- context [bind (path_exists (output_dir self)) ?k w1] =>
      destruct (bind (path_exists (output_dir self)) k w1)
        as [[[]|e|s] w2] eqn:E2; try discriminate
  end.
  unfold ret, print, log. intros [= <-]. cbn [fs cwd clock trace].
  destruct (clean_one_leaves_empty _ _ _ E1) as [L1 [C1 K1]].
  destruct (clean_one_leaves_empty _ _ _ E2) as [L2 [C2 K2]].
  split; [|split; [exact L2|split; [now rewrite C2, C1|now rewrite K2, K1]]].
  pose proof (untouched_clean_one _ _ output_diverges_from_build _ _ _ E2 [])
    as U.
  rewrite app_nil_r in U. now rewrite U.
Qed.

(** X11: when the build directory is a regular file, [clean_directories]
    raises before it changes anything. *)
Theorem clean_directories_blocked_by_file (w : World) :
  is_file (fs w) (build_dir self) = true ->
  clean_directories self w =
  (Raise (OSError "NotADirectoryError"),
   log (EPrint "
Cleaning directories...") w).
Proof.
  intros H.
  assert (exists_ (fs w) (build_dir self) = true /\
          is_dir (fs w) (build_dir self) = false) as [Hx Hd].
  { unfold is_file in H. unfold exists_, is_dir.
    destruct (lookup (build_dir self) (fs w)) as [[x d|es]|];
      try discriminate; auto. }
  unfold clean_directories. cbn [for_each].
  cbv [bind print path_exists reads when shutil_rmtree log].
  cbn [fs cwd clock trace]. rewrite Hx. cbv beta iota.
  cbn [fs cwd clock trace]. rewrite Hd, Hx. reflexivity.
Qed.

End Cleaning.

(** ** The build drivers *)

Section Drivers.

Import FS Py FSFacts Effects.
Local Open Scope list_scope.
Local Open Scope py_scope.

Variable host : Host.
Variable spawn : Spawn.

Lemma ticks_nothing {A} (n : nat) (m : M A) :
  (forall w r w', m w = (r, w') -> w' = w /\ forall a, r = Ret a -> n = 0%nat) ->
  ticks n m.
Proof.
  intros H w r w' E. destruct (H _ _ _ E) as [-> Hn].
  split; [reflexivity|]. split; [lia|].
  intros a Ha. rewrite (Hn a Ha). lia.
Qed.

Lemma ticks_ret {A} (a : A) : ticks 0 (ret a).
Proof. apply ticks_nothing. intros w r w' [= <- <-]. auto. Qed.

Lemma ticks_raise {A} (n : nat) (e : exn) : ticks n (@raise A e).
Proof.
  apply ticks_nothing. intros w r w' [= <- <-]. split; auto. discriminate.
Qed.

Lemma ticks_print (text : string) : ticks 0 (print text).
Proof.
  intros w r w' [= <- <-]. simpl. split; [reflexivity|]. split; lia.
Qed.

Lemma ticks_subprocess_run (cmd : list string) (dir : option path)
      (check : bool) :
  ticks 1 (subprocess_run spawn cmd dir check).
Proof.
  intros w r w'. unfold subprocess_run.
  destruct (st _) as [code| |why];
    [destruct (check && negb (Z.eqb code 0))| |];
    intros [= <- <-]; simpl; (split; [reflexivity|]); split; lia.
Qed.

Lemma ticks_bind {A B} (n k : nat) (m : M A) (f : A -> M B) :
  ticks n m -> (forall a, ticks k (f a)) -> ticks (n + k) (bind m f).
Proof.
  intros Hm Hf w r w'. unfold bind.
  destruct (m w) as [[a|e|s] w1] eqn:E; intros H.
  - destruct (Hm _ _ _ E) as [C1 [B1 R1]].
    destruct (Hf a _ _ _ H) as [C2 [B2 R2]].
    specialize (R1 a eq_refl).
    split; [congruence|]. split; [lia|].
    intros b Hb. rewrite (R2 b Hb). lia.
  - injection H as <- <-. destruct (Hm _ _ _ E) as [C1 [B1 R1]].
    split; [exact C1|]. split; [lia|discriminate].
  - injection H as <- <-. destruct (Hm _ _ _ E) as [C1 [B1 R1]].
    split; [exact C1|]. split; [lia|discriminate].
Qed.

(** X12: the CMake driver never changes the working directory; it starts
    at most three processes and exactly three when it completes. *)
Theorem build_cmake_project_ticks (self : CProjectBuilder) :
  ticks 3 (build_cmake_project host spawn self).
Proof.
  unfold build_cmake_project.
  apply (ticks_bind 0 3); [apply ticks_print|]. intros _.
  apply (ticks_bind 0 3); [apply ticks_print|]. intros _.
  apply (ticks_bind 1 2); [apply ticks_subprocess_run|]. intros _.
  apply (ticks_bind 0 2); [apply ticks_print|]. intros _.
  apply (ticks_bind 1 1).
  { destruct (is_windows host); [|apply ticks_subprocess_run].
    destruct (msbuild_path self); [apply ticks_subprocess_run|].
    apply ticks_raise. }
  intros _.
  apply (ticks_bind 0 1); [apply ticks_print|]. intros _.
  apply (ticks_bind 1 0); [apply ticks_subprocess_run|]. intros _.
  apply ticks_ret.
Qed.


(** X14: when [build_project] returns, the kind it detected is one of
    CMake, Autotools and Make, and the builder it returns differs from the
    one it was given in [build_system] only, which holds that kind. *)
Theorem build_project_records_kind
        (self self' : CProjectBuilder) (w w' : World) :
  build_project host spawn self w = (Ret self', w') ->
  exists kind,
    detected host self w = Ret kind /\
    kind <> UNKNOWN /\
    self' = set_build_system self (Some kind).
Proof.
  unfold build_project, detected. unfold bind at 1.
  destruct (detect_build_system host self w) as [[kind|e|s] w1];
    try discriminate.
  intros H. exists kind. split; [reflexivity|].
  unfold bind at 1 in H.
  destruct kind; cbn [BuildSystem_eqb BuildSystem_value String.eqb] in H;
    simpl in H.
  1-3: split; [discriminate|];
    match type of H with
    | (let (_, _) := ?d ?v in _) = _ => destruct (d v) as [[[]|e|s] w2]
    end; try discriminate;
    unfold bind, print, ret in H; now injection H as <- _.
  unfold raise in H. discriminate.
Qed.

(** X15: in a checkout that holds neither [autogen.sh] nor [configure],
    the Autotools driver runs no generation or configuration step: the
    only processes it starts are [make -j] and [make install]. *)
Theorem autotools_without_scripts
        (self : CProjectBuilder) (w : World) (r : outcome unit) (w' : World) :
  has_marker self w "autogen.sh" = false ->
  has_marker self w "configure" = false ->
  build_autotools_project host spawn self w = (r, w') ->
  exists new, trace w' = new ++ trace w /\ Forall make_only new.
Proof.
  unfold has_marker. intros Ha Hc.
  unfold build_autotools_project.
  unfold bind at 1 2, print at 1, os_chdir, log. cbn [fs cwd clock trace].
  destruct (is_dir (fs w) (source_dir self)).
  - unfold bind at 1, path_exists at 1, reads. cbn [fs]. rewrite Ha.
    unfold bind at 1. cbn [when]. unfold ret at 1.
    unfold bind at 1, path_exists at 1, reads. cbn [fs]. rewrite Hc.
    unfold bind at 1. cbn [when]. unfold ret at 1.
    intros H.
    assert (emits make_only
              (print "
Running make..." ;;
               subprocess_run spawn ["make"; "-j"] None true ;;
               print "
Running make install..." ;;
               subprocess_run spawn ["make"; "install"] None true ;;
               os_chdir (project_root self))) as E.
    { apply emits_bind; [apply emits_print; exact I|]. intros _.
      apply emits_bind;
        [apply emits_subprocess_run; intros ?; left; reflexivity|].
      intros _. apply emits_bind; [apply emits_print; exact I|]. intros _.
      apply emits_bind;
        [apply emits_subprocess_run; intros ?; right; reflexivity|].
      intros _. apply emits_chdir. exact I. }
    destruct (E _ _ _ H) as [_ [new [T [F _]]]]. cbn [trace] in T.
    exists (new ++ [EChdir (source_dir self); EPrint "
Building with Autotools..."]).
    split.
    + rewrite T, <- app_assoc. reflexivity.
    + apply Forall_app. split; [exact F|]. repeat constructor.
  - intros [= _ <-]. exists [EPrint "
Building with Autotools..."]. split; [reflexivity|]. repeat constructor.
Qed.

End Drivers.

(** ** The builder that reaches the stages *)

Section Builder.

Import FS Py.
Local Open Scope list_scope.

Variable host : Host.
Variable spawn : Spawn.


End Builder.

(** ** Runs of the rest of the script on concrete machines *)

Module MoreScenarios.

Import FS Py Demo Lab.
Local Open Scope list_scope.
Local Open Scope py_scope.

Lemma libfoo_plain : plain_paths libfoo.
Proof.
  split.
  - repeat constructor; try discriminate; reflexivity.
  - repeat split; try discriminate; reflexivity.
Defined.

Lemma project_name_of_plain_url_witness :
  derive_project_name "https://github.com/example/libfoo.git" = "libfoo".
Proof.
  assert (H1 : has_char "/" "libfoo" = false) by reflexivity.
  assert (H2 : has_char "." "libfoo" = false) by reflexivity.
  exact (proj1 (project_name_of_plain_url
                  "https://github.com/example" "libfoo" H1 H2)).
Defined.

Lemma main_without_url_witness :
  fst (main linux (healthy no_marker_tree) ["builder.py"] (boot disk home))
  = Exit 1.
Proof.
  assert (H : (List.length ["builder.py"] < 2)%nat) by (simpl; lia).
  exact (f_equal fst (main_without_url linux (healthy no_marker_tree)
                        ["builder.py"] (boot disk home) H)).
Defined.

Lemma check_dependencies_reports_witness :
  exists git make cmake msbuild,
    ["cmake"] = reported git make cmake msbuild.
Proof.
  pose (m := without_cmake no_marker_tree).
  assert (H : check_dependencies linux m libfoo (boot disk home) =
              (Ret (["cmake"], libfoo),
               snd (check_dependencies linux m libfoo (boot disk home))))
    by (vm_compute; reflexivity).
  destruct (check_dependencies_reports linux m _ _ _ _ _ H)
    as [g [k [c [b [E _]]]]].
  exists g, k, c, b. exact E.
Defined.

Lemma check_dependencies_raises_only_oserror_witness :
  exists why, OSError "PermissionError" = OSError why.
Proof.
  assert (H : check_dependencies linux unstartable libfoo (boot disk home) =
              (Raise (OSError "PermissionError"),
               snd (check_dependencies linux unstartable libfoo
                      (boot disk home))))
    by (vm_compute; reflexivity).
  exact (check_dependencies_raises_only_oserror linux unstartable _ _ _ _ H).
Defined.

Lemma check_dependencies_reports_each_tool_witness :
  In "cmake" ["cmake"] /\ ~ In "git" ["cmake"].
Proof.
  pose (m := without_cmake no_marker_tree).
  assert (H : check_dependencies linux m libfoo (boot disk home) =
              (Ret (["cmake"], libfoo),
               snd (check_dependencies linux m libfoo (boot disk home))))
    by (vm_compute; reflexivity).
  assert (T1 : In "cmake" ["git"; "make"; "cmake"])
    by (right; right; left; reflexivity).
  assert (T2 : In "git" ["git"; "make"; "cmake"]) by (left; reflexivity).
  assert (N : not_installed m "cmake") by (intros dir root k; reflexivity).
  assert (I : installed m "git") by (intros dir root k; reflexivity).
  split.
  - exact (proj2 (check_dependencies_reports_each_tool
                    linux m _ _ _ _ _ "cmake" H T1) N).
  - exact (proj1 (check_dependencies_reports_each_tool
                    linux m _ _ _ _ _ "git" H T2) I).
Defined.

Lemma clean_directories_keeps_checkout_witness :
  lookup (source_dir libfoo ++ ["prog"])
         (fs (snd (clean_directories libfoo (boot used_disk home))))
  = lookup (source_dir libfoo ++ ["prog"]) used_disk.
Proof.
  assert (L : laid_out libfoo) by (split; reflexivity).
  assert (B : laid_out_build libfoo) by reflexivity.
  assert (H : clean_directories libfoo (boot used_disk home) =
              (fst (clean_directories libfoo (boot used_disk home)),
               snd (clean_directories libfoo (boot used_disk home))))
    by (vm_compute; reflexivity).
  exact (clean_directories_keeps_checkout libfoo L B libfoo_plain
           _ _ _ H ["prog"]).
Defined.

Lemma clean_directories_leaves_empty_witness :
  lookup (build_dir libfoo)
         (fs (snd (clean_directories libfoo (boot used_disk home))))
  = Some (Dir []).
Proof.
  assert (L : laid_out libfoo) by (split; reflexivity).
  assert (B : laid_out_build libfoo) by reflexivity.
  assert (H : clean_directories libfoo (boot used_disk home) =
              (Ret tt, snd (clean_directories libfoo (boot used_disk home))))
    by (vm_compute; reflexivity).
  exact (proj1 (clean_directories_leaves_empty libfoo L B _ _
                  libfoo_plain H)).
Defined.

Lemma clean_directories_blocked_by_file_witness :
  fst (clean_directories libfoo (boot blocked_disk home))
  = Raise (OSError "NotADirectoryError").
Proof.
  assert (H : is_file (fs (boot blocked_disk home)) (build_dir libfoo) = true)
    by reflexivity.
  exact (f_equal fst (clean_directories_blocked_by_file libfoo _ H)).
Defined.

Lemma copy_artifacts_keeps_source_witness :
  lookup (source_dir libfoo ++ ["libfoo.so"])
         (fs (snd (copy_artifacts linux libfoo (boot used_disk home))))
  = lookup (source_dir libfoo ++ ["libfoo.so"]) used_disk.
Proof.
  assert (L : laid_out libfoo) by (split; reflexivity).
  assert (H : copy_artifacts linux libfoo (boot used_disk home) =
              (fst (copy_artifacts linux libfoo (boot used_disk home)),
               snd (copy_artifacts linux libfoo (boot used_disk home))))
    by (vm_compute; reflexivity).
  exact (copy_artifacts_keeps_source linux libfoo L libfoo_plain
           _ _ _ H ["libfoo.so"]).
Defined.

Lemma build_cmake_project_ticks_witness :
  clock (snd (build_cmake_project linux (healthy cmake_and_make_tree) libfoo
                (boot (checked_out cmake_and_make_tree) home))) = 3%nat.
Proof.
  pose (m := healthy cmake_and_make_tree).
  pose (w := boot (checked_out cmake_and_make_tree) home).
  assert (H : build_cmake_project linux m libfoo w =
              (Ret tt, snd (build_cmake_project linux m libfoo w)))
    by (vm_compute; reflexivity).
  exact (proj2 (proj2 (build_cmake_project_ticks linux m libfoo _ _ _ H))
           tt eq_refl).
Defined.


Lemma build_project_records_kind_witness :
  exists kind,
    detected linux libfoo (boot (checked_out cmake_and_make_tree) home)
      = Ret kind /\ kind <> UNKNOWN.
Proof.
  pose (m := healthy cmake_and_make_tree).
  pose (w := boot (checked_out cmake_and_make_tree) home).
  assert (H : build_project linux m libfoo w =
              (Ret (set_build_system libfoo (Some CMAKE)),
               snd (build_project linux m libfoo w)))
    by (vm_compute; reflexivity).
  destruct (build_project_records_kind linux m _ _ _ _ H) as [kind [D [N _]]].
  exists kind. split; [exact D|exact N].
Defined.

Lemma autotools_without_scripts_witness :
  exists new,
    trace (snd (build_autotools_project linux (healthy configure_ac_tree)
                  libfoo (boot (checked_out configure_ac_tree) home)))
    = new ++ [] /\ Forall make_only new.
Proof.
  pose (m := healthy configure_ac_tree).
  pose (w := boot (checked_out configure_ac_tree) home).
  assert (H1 : has_marker libfoo w "autogen.sh" = false) by reflexivity.
  assert (H2 : has_marker libfoo w "configure" = false) by reflexivity.
  assert (H : build_autotools_project linux m libfoo w =
              (fst (build_autotools_project linux m libfoo w),
               snd (build_autotools_project linux m libfoo w)))
    by (vm_compute; reflexivity).
  exact (autotools_without_scripts linux m libfoo w _ _ H1 H2 H).
Defined.


End MoreScenarios.
